(** * Blog backend: articles and comments over a key-value store

    A shallow embedding of [src/supabase/functions/server/index.tsx]: the
    request handlers of the article and comment routes, the authorization
    gate [verifyAuth], and the key-space conventions [article:<id>] and
    [comment:<articleId>:<commentId>].

    JavaScript strings are embedded as [string]; one character stands for
    one UTF-16 code unit, so [String.length] is [.length] and
    [substring 0 n] is [.substring(0, n)].

    A handler is run to its end before the next one starts, and the calls
    to the store always succeed: interleaved requests and storage failures
    are outside this development. *)

From Stdlib Require Import ZArith String Ascii List Lia.
From Stdlib Require Import Sorting.Permutation Sorting.Sorted.
From Stdlib Require Import DecimalString DecimalZ.
From stdpp Require Import base option gmap strings list.

Open Scope string_scope.
Open Scope Z_scope.
Open Scope list_scope.

(** ** JavaScript values

    The values that [await c.req.json()] can produce, plus [undefined] (the
    value of a destructured field that is absent).  A JSON number is kept as
    an integer: the handlers only test numbers for truthiness. *)

#[warnings="-register-all"]
Inductive jsval : Type :=
  | JUndefined
  | JNull
  | JBool (b : bool)
  | JNum (n : Z)
  | JStr (s : string)
  | JArr (l : list jsval)
  | JObj (o : gmap string jsval).

(** A JavaScript object with string-valued property names. *)
Abbreviation obj := (gmap string jsval).

Definition nonempty (s : string) : bool :=
  match s with EmptyString => false | String _ _ => true end.

(** [!!v] *)
Definition truthy (v : jsval) : bool :=
  match v with
  | JUndefined | JNull => false
  | JBool b => b
  | JNum n => negb (n =? 0)
  | JStr s => nonempty s
  | JArr _ | JObj _ => true
  end.

(** [v === undefined || v === null] *)
Definition nullish (v : jsval) : bool :=
  match v with JUndefined | JNull => true | _ => false end.

(** [v !== undefined] *)
Definition defined (v : jsval) : bool :=
  match v with JUndefined => false | _ => true end.

(** [a || b] *)
Definition js_or (a b : jsval) : jsval := if truthy a then a else b.

(** [a ?? b] *)
Definition js_coalesce (a b : jsval) : jsval := if nullish a then b else a.

(** [o.k] on an object: the property's value, [undefined] when absent. *)
Definition prop (o : obj) (k : string) : jsval := default JUndefined (o !! k).

(** ** Requests, responses and the environment *)

Record Request := {
  req_authorization : option string;   (* request.headers.get('Authorization') *)
  req_param : string → string;         (* c.req.param(name) *)
  req_json : option jsval              (* await c.req.json(); None: it throws *)
}.

Record Response := {
  status : Z;
  body : jsval
}.

(** [c.json(o, status)] *)
Definition json (o : obj) (code : Z) : Response :=
  {| status := code; body := JObj o |}.

(** What a handler reads from its surroundings: the result of
    [crypto.randomUUID()] and the clock readings of its first and second
    [new Date()]. *)
Record Env := {
  env_uuid : string;
  env_now : Z;
  env_now2 : Z
}.

(** What [supabase.auth.getUser(token)] answers: [user?.id] and whether
    [error] is set. *)
Record AuthResult := {
  auth_user_id : option string;
  auth_error : bool
}.

(** ** The key-value store *)

Abbreviation store := (list (string * obj)).

Inductive kvcall : Type :=
  | KvGet (key : string)
  | KvSet (key : string) (value : obj)
  | KvDel (key : string)
  | KvMdel (keys : list string)
  | KvGetByPrefix (pfx : string).

Module kv.

(** [kv_store.tsx], which the server imports as [kv], is not among the
    sources.  Its five operations follow the key-value contract of the
    specification, on a table whose primary key is [key].  A store is the
    list of its rows in the order a scan returns them; the contract leaves
    that order open, so statements about scans are made for every order of
    the rows. *)

Definition has_key (k : string) (row : string * obj) : bool :=
  String.eqb (fst row) k.

(** Modelled from the spec: [kv.get], absent from the sources;
    [get(key) -> value | absent]. *)
Definition get (k : string) (s : store) : option obj :=
  snd <$> List.find (has_key k) s.

(** Modelled from the spec: [kv.del], absent from the sources;
    [delete(key) -> success], deleting an absent key is not an error. *)
Definition del (k : string) (s : store) : store :=
  List.filter (λ row, negb (has_key k row)) s.

(** Modelled from the spec: [kv.set], absent from the sources;
    [set(key, value) -> success], the key then maps to the value and to
    nothing else. *)
Definition set (k : string) (v : obj) (s : store) : store :=
  del k s ++ [(k, v)].

(** Modelled from the spec: [kv.mdel], absent from the sources;
    [deleteMany(keys) -> success]. *)
Definition mdel (ks : list string) (s : store) : store :=
  List.filter (λ row, negb (existsb (String.eqb (fst row)) ks)) s.

(** Modelled from the spec: [kv.getByPrefix], absent from the sources;
    [scanByPrefix(prefix) -> sequence of (key, value) pairs], every row
    whose key starts with the prefix. *)
Definition getByPrefix (p : string) (s : store) : store :=
  List.filter (λ row, String.prefix p (fst row)) s.

End kv.

(** ** Handler computations

    A handler runs against the store, may throw, and leaves behind the
    sequence of store calls it made. *)

Inductive result (A : Type) : Type :=
  | Done (a : A)
  | Thrown.
Arguments Done {A} a.
Arguments Thrown {A}.

Definition M (A : Type) : Type := store → result A * store * list kvcall.

#[global] Instance M_ret : MRet M := λ A a s, (Done a, s, []).

#[global] Instance M_bind : MBind M := λ A B f m s,
  match m s with
  | (Done a, s1, calls1) =>
      match f a s1 with
      | (r, s2, calls2) => (r, s2, calls1 ++ calls2)
      end
  | (Thrown, s1, calls1) => (Thrown, s1, calls1)
  end.

Definition throw {A : Type} : M A := λ s, (Thrown, s, []).

(** The calls [await kv.get(k)], [await kv.set(k, v)], [await kv.del(k)],
    [await kv.mdel(ks)] and [await kv.getByPrefix(p)]. *)
Definition kv_get (k : string) : M (option obj) :=
  λ s, (Done (kv.get k s), s, [KvGet k]).
Definition kv_set (k : string) (v : obj) : M unit :=
  λ s, (Done tt, kv.set k v s, [KvSet k v]).
Definition kv_del (k : string) : M unit :=
  λ s, (Done tt, kv.del k s, [KvDel k]).
Definition kv_mdel (ks : list string) : M unit :=
  λ s, (Done tt, kv.mdel ks s, [KvMdel ks]).
Definition kv_getByPrefix (p : string) : M store :=
  λ s, (Done (kv.getByPrefix p s), s, [KvGetByPrefix p]).

(** [try { m } catch (error) { return fallback }] *)
Definition try_catch (m : M Response) (fallback : Response) : M Response :=
  λ s, match m s with
       | (Thrown, s1, calls) => (Done fallback, s1, calls)
       | r => r
       end.

Definition response_of (x : result Response * store * list kvcall)
  : option Response :=
  match x with (Done r, _, _) => Some r | _ => None end.
Definition store_of {A} (x : result A * store * list kvcall) : store :=
  snd (fst x).
Definition calls_of {A} (x : result A * store * list kvcall) : list kvcall :=
  snd x.

(** ** Pieces of JavaScript the handlers use *)

(** [await c.req.json()] *)
Definition read_json (req : Request) : M jsval :=
  match req_json req with Some v => mret v | None => throw end.

(** One field of [const { k, ... } = v]: destructuring [null] throws; an
    array, string, number or boolean has none of the fields the handlers
    name. *)
Definition field (v : jsval) (k : string) : M jsval :=
  match v with
  | JUndefined | JNull => throw
  | JObj o => mret (prop o k)
  | _ => mret JUndefined
  end.

(** [v.substring(0, n) + '...']: only a string has the method. *)
Definition substring_dots (v : jsval) (n : nat) : M jsval :=
  match v with
  | JStr s => mret (JStr (substring 0 n s +:+ "..."))
  | _ => throw
  end.

(** [s.split(' ')] *)
Fixpoint split_space (s : string) : list string :=
  match s with
  | EmptyString => [EmptyString]
  | String c s' =>
      if Ascii.eqb c " " then EmptyString :: split_space s'
      else match split_space s' with
           | w :: ws => String c w :: ws
           | [] => [String c EmptyString]
           end
  end.

(** [arr.sort(cmp)]: the sort is stable; a comparator result of [NaN]
    ([None]) counts as zero, and only the sign of the result is used.  For
    a comparator that orders the elements consistently every stable sort
    returns the same list; it is computed here by insertion. *)
Definition swap_needed (r : option Z) : bool :=
  match r with Some d => 0 <? d | None => false end.

Fixpoint sort_insert {A} (cmp : A → A → option Z) (x : A) (l : list A)
  : list A :=
  match l with
  | [] => [x]
  | y :: l' => if swap_needed (cmp x y) then y :: sort_insert cmp x l'
               else x :: l
  end.

Definition js_sort {A} (cmp : A → A → option Z) (l : list A) : list A :=
  foldr (sort_insert cmp) [] l.

(** [a - b] on numbers, [NaN] when either is. *)
Definition js_minus (a b : option Z) : option Z :=
  match a, b with Some x, Some y => Some (x - y) | _, _ => None end.

(** ** Key space *)

Definition article_key (id : string) : string := "article:" +:+ id.
Definition comment_prefix (articleId : string) : string :=
  "comment:" +:+ articleId +:+ ":".
Definition comment_key (articleId commentId : string) : string :=
  "comment:" +:+ articleId +:+ ":" +:+ commentId.

(** ** What the runtime provides *)

(** The range of [Date]: 100,000,000 days either side of the epoch, in
    milliseconds. *)
Definition valid_time (t : Z) : Prop :=
  -8640000000000000 ≤ t ≤ 8640000000000000.

Definition is_hex (c : ascii) : bool :=
  let n := nat_of_ascii c in
  ((48 <=? n) && (n <=? 57) || (97 <=? n) && (n <=? 102))%nat.

Definition uuid_char (i : nat) (c : ascii) : bool :=
  if ((i =? 8) || (i =? 13) || (i =? 18) || (i =? 23))%nat
  then Ascii.eqb c "-" else is_hex c.

Fixpoint uuid_chars (i : nat) (s : string) : bool :=
  match s with
  | EmptyString => true
  | String c s' => uuid_char i c && uuid_chars (S i) s'
  end.

(** The shape of what [crypto.randomUUID()] returns: 36 characters,
    lower-case hexadecimal digits in groups of 8-4-4-4-12 joined by
    hyphens. *)
Definition is_uuid (s : string) : bool :=
  (String.length s =? 36)%nat && uuid_chars 0 s.

Definition valid_env (env : Env) : Prop :=
  is_uuid (env_uuid env) = true
  ∧ valid_time (env_now env) ∧ valid_time (env_now2 env).

Fixpoint no_colon (s : string) : bool :=
  match s with
  | EmptyString => true
  | String c s' => negb (Ascii.eqb c ":") && no_colon s'
  end.

(** The routes that read or write the store. *)
Inductive ApiCall : Type :=
  | GetArticles | GetArticle | PostArticles | PutArticle | DeleteArticle
  | GetComments | PostComments | DeleteComment.

(** The same request under another [Authorization] header. *)
Definition with_authorization (auth : option string) (req : Request)
  : Request :=
  {| req_authorization := auth;
     req_param := req_param req;
     req_json := req_json req |}.

(** Position of two elements in a listing. *)
Definition appears_before {A} (x y : A) (l : list A) : Prop :=
  ∃ i j : nat, (i < j)%nat ∧ l !! i = Some x ∧ l !! j = Some y.

(** ** The handlers

    The runtime and the identity provider are parameters: what
    [new Date(t).toISOString()] prints, what [new Date(v).getTime()] reads
    back ([None] for [NaN]), and what [supabase.auth.getUser] answers. *)

Section Server.

Variable toISOString : Z → string.
Variable getTime : jsval → option Z.
Variable getUser : string → AuthResult.

(** [verifyAuth(request)]: the caller's id, or [null]. *)
Definition verifyAuth (req : Request) : jsval :=
  match req_authorization req with
  | None => JNull
  | Some header =>
      match split_space header !! 1%nat with
      | None => JNull
      | Some accessToken =>
          if negb (nonempty accessToken) then JNull
          else
            let r := getUser accessToken in
            match auth_error r, auth_user_id r with
            | false, Some id => if nonempty id then JStr id else JNull
            | _, _ => JNull
            end
      end
  end.

Definition unauthorized : Response :=
  json {[ "error" := JStr "Unauthorized - Please log in" ]} 401.

Definition article_not_found : Response :=
  json {[ "error" := JStr "Article not found" ]} 404.

Definition success : Response := json {[ "success" := JBool true ]} 200.

(** The comparator of the article listing:
    [new Date(b.createdAt).getTime() - new Date(a.createdAt).getTime()]. *)
Definition newest_first (a b : obj) : option Z :=
  js_minus (getTime (prop b "createdAt")) (getTime (prop a "createdAt")).

(** The comparator of the comment listing:
    [new Date(a.createdAt).getTime() - new Date(b.createdAt).getTime()]. *)
Definition oldest_first (a b : obj) : option Z :=
  js_minus (getTime (prop a "createdAt")) (getTime (prop b "createdAt")).

(** [GET /articles] *)
Definition get_articles (req : Request) (env : Env) : M Response :=
  try_catch
    (articles ← kv_getByPrefix "article:";
     let sortedArticles := js_sort newest_first (map snd articles) in
     mret (json {[ "articles" := JArr (JObj <$> sortedArticles) ]} 200))
    (json {[ "error" := JStr "Failed to fetch articles" ]} 500).

(** [GET /articles/:id] *)
Definition get_article (req : Request) (env : Env) : M Response :=
  try_catch
    (let id := req_param req "id" in
     article ← kv_get (article_key id);
     match article with
     | None => mret article_not_found
     | Some article => mret (json {[ "article" := JObj article ]} 200)
     end)
    (json {[ "error" := JStr "Failed to fetch article" ]} 500).

(** [POST /articles] *)
Definition post_articles (req : Request) (env : Env) : M Response :=
  try_catch
    (let userId := verifyAuth req in
     if negb (truthy userId) then mret unauthorized
     else
       b ← read_json req;
       title ← field b "title";
       content ← field b "content";
       excerpt ← field b "excerpt";
       imageUrl ← field b "imageUrl";
       videoUrl ← field b "videoUrl";
       audioUrl ← field b "audioUrl";
       if negb (truthy title) || negb (truthy content)
       then mret (json {[ "error" := JStr "Title and content are required" ]} 400)
       else
         let id := env_uuid env in
         excerpt' ← (if truthy excerpt then mret excerpt
                     else substring_dots content 150);
         let article : obj := list_to_map [
           ("id", JStr id);
           ("title", title);
           ("content", content);
           ("excerpt", excerpt');
           ("imageUrl", js_or imageUrl JNull);
           ("videoUrl", js_or videoUrl JNull);
           ("audioUrl", js_or audioUrl JNull);
           ("authorId", userId);
           ("createdAt", JStr (toISOString (env_now env)));
           ("updatedAt", JStr (toISOString (env_now2 env))) ] in
         kv_set (article_key id) article;;
         mret (json (<[ "article" := JObj article ]> {[ "success" := JBool true ]}) 200))
    (json {[ "error" := JStr "Failed to create article" ]} 500).

(** The object literal of the update:
    [{ ...existingArticle, title: title ?? existingArticle.title, ... }]. *)
Definition updatedArticle (existingArticle : obj)
    (title content excerpt imageUrl videoUrl audioUrl : jsval) (now : Z)
  : obj :=
  <[ "updatedAt" := JStr (toISOString now) ]>
  (<[ "audioUrl" := if defined audioUrl then audioUrl
                    else prop existingArticle "audioUrl" ]>
  (<[ "videoUrl" := if defined videoUrl then videoUrl
                    else prop existingArticle "videoUrl" ]>
  (<[ "imageUrl" := if defined imageUrl then imageUrl
                    else prop existingArticle "imageUrl" ]>
  (<[ "excerpt" := js_coalesce excerpt (prop existingArticle "excerpt") ]>
  (<[ "content" := js_coalesce content (prop existingArticle "content") ]>
  (<[ "title" := js_coalesce title (prop existingArticle "title") ]>
     existingArticle)))))).

(** [PUT /articles/:id] *)
Definition put_article (req : Request) (env : Env) : M Response :=
  try_catch
    (let userId := verifyAuth req in
     if negb (truthy userId) then mret unauthorized
     else
       let id := req_param req "id" in
       existingArticle ← kv_get (article_key id);
       match existingArticle with
       | None => mret article_not_found
       | Some existingArticle =>
           b ← read_json req;
           title ← field b "title";
           content ← field b "content";
           excerpt ← field b "excerpt";
           imageUrl ← field b "imageUrl";
           videoUrl ← field b "videoUrl";
           audioUrl ← field b "audioUrl";
           let updated :=
             updatedArticle existingArticle title content excerpt
                            imageUrl videoUrl audioUrl (env_now env) in
           kv_set (article_key id) updated;;
           mret (json (<[ "article" := JObj updated ]>
                         {[ "success" := JBool true ]}) 200)
       end)
    (json {[ "error" := JStr "Failed to update article" ]} 500).

(** [DELETE /articles/:id] *)
Definition delete_article (req : Request) (env : Env) : M Response :=
  try_catch
    (let userId := verifyAuth req in
     if negb (truthy userId) then mret unauthorized
     else
       let id := req_param req "id" in
       article ← kv_get (article_key id);
       match article with
       | None => mret article_not_found
       | Some _ =>
           kv_del (article_key id);;
           comments ← kv_getByPrefix (comment_prefix id);
           let commentKeys := map fst comments in
           (if (0 <? length commentKeys)%nat
            then kv_mdel commentKeys else mret tt);;
           mret success
       end)
    (json {[ "error" := JStr "Failed to delete article" ]} 500).

(** [GET /comments/:articleId] *)
Definition get_comments (req : Request) (env : Env) : M Response :=
  try_catch
    (let articleId := req_param req "articleId" in
     comments ← kv_getByPrefix (comment_prefix articleId);
     let sortedComments := js_sort oldest_first (map snd comments) in
     mret (json {[ "comments" := JArr (JObj <$> sortedComments) ]} 200))
    (json {[ "error" := JStr "Failed to fetch comments" ]} 500).

(** [POST /comments/:articleId] *)
Definition post_comments (req : Request) (env : Env) : M Response :=
  try_catch
    (let articleId := req_param req "articleId" in
     b ← read_json req;
     name ← field b "name";
     content ← field b "content";
     if negb (truthy name) || negb (truthy content)
     then mret (json {[ "error" := JStr "Name and content are required" ]} 400)
     else
       article ← kv_get (article_key articleId);
       match article with
       | None => mret article_not_found
       | Some _ =>
           let commentId := env_uuid env in
           let comment : obj := list_to_map [
             ("id", JStr commentId);
             ("articleId", JStr articleId);
             ("name", name);
             ("content", content);
             ("createdAt", JStr (toISOString (env_now env))) ] in
           kv_set (comment_key articleId commentId) comment;;
           mret (json (<[ "comment" := JObj comment ]>
                         {[ "success" := JBool true ]}) 200)
       end)
    (json {[ "error" := JStr "Failed to create comment" ]} 500).

(** [DELETE /comments/:articleId/:commentId] *)
Definition delete_comment (req : Request) (env : Env) : M Response :=
  try_catch
    (let userId := verifyAuth req in
     if negb (truthy userId) then mret unauthorized
     else
       let articleId := req_param req "articleId" in
       let commentId := req_param req "commentId" in
       comment ← kv_get (comment_key articleId commentId);
       match comment with
       | None => mret (json {[ "error" := JStr "Comment not found" ]} 404)
       | Some _ =>
           kv_del (comment_key articleId commentId);;
           mret success
       end)
    (json {[ "error" := JStr "Failed to delete comment" ]} 500).

(** *** The service as a transition system *)

Definition handle (call : ApiCall) : Request → Env → M Response :=
  match call with
  | GetArticles => get_articles
  | GetArticle => get_article
  | PostArticles => post_articles
  | PutArticle => put_article
  | DeleteArticle => delete_article
  | GetComments => get_comments
  | PostComments => post_comments
  | DeleteComment => delete_comment
  end.

(** The stores the service can be in: the table starts empty and changes
    only through the handlers, each run with a UUID from the runtime and
    clock readings in the range of [Date]. *)
Inductive reachable : store → Prop :=
  | reachable_empty : reachable []
  | reachable_step s call req env :
      reachable s →
      valid_env env →
      reachable (store_of (handle call req env s)).

(** [new Date(a.k)] is strictly later than [new Date(b.k)]. *)
Definition later (a b : obj) (k : string) : Prop :=
  ∃ ta tb, getTime (prop a k) = Some ta ∧ getTime (prop b k) = Some tb
           ∧ tb < ta.

(** What every row of a reachable store looks like. *)
Definition article_row (row : string * obj) : Prop :=
  ∃ id t, fst row = article_key id ∧ no_colon id = true
          ∧ prop (snd row) "createdAt" = JStr (toISOString t)
          ∧ valid_time t.

Definition comment_row (row : string * obj) : Prop :=
  ∃ articleId commentId t,
    fst row = comment_key articleId commentId
    ∧ no_colon articleId = true ∧ no_colon commentId = true
    ∧ prop (snd row) "articleId" = JStr articleId
    ∧ prop (snd row) "id" = JStr commentId
    ∧ prop (snd row) "createdAt" = JStr (toISOString t)
    ∧ valid_time t.

Definition row_ok (row : string * obj) : Prop :=
  article_row row ∨ comment_row row.

(** [new Date(a.k)] is not earlier than [new Date(b.k)]. *)
Definition not_earlier (k : string) (a b : obj) : Prop :=
  ∃ ta tb, getTime (prop a k) = Some ta ∧ getTime (prop b k) = Some tb
           ∧ tb ≤ ta.

End Server.

(** ** A small runtime to run the handlers on concrete requests

    Timestamps print as decimal milliseconds; one token, [secret], resolves
    to the user [admin]. *)

Module Sample.

Definition toISOString (t : Z) : string :=
  NilZero.string_of_int (Z.to_int t).

Definition getTime (v : jsval) : option Z :=
  match v with
  | JStr s => Z.of_int <$> NilZero.int_of_string s
  | _ => None
  end.

Definition getUser (token : string) : AuthResult :=
  if String.eqb token "secret"
  then {| auth_user_id := Some "admin"; auth_error := false |}
  else {| auth_user_id := None; auth_error := true |}.

Definition uuid1 : string := "123e4567-e89b-42d3-a456-426614174000".
Definition uuid2 : string := "9b2f0c1e-7a4d-4e6b-8c3a-5d1f2e3a4b5c".

Definition request (auth : option string) (id : string)
    (json : option jsval) : Request :=
  {| req_authorization := auth; req_param := λ _, id; req_json := json |}.

Definition admin : option string := Some "Bearer secret".

Definition at_time (uuid : string) (t : Z) : Env :=
  {| env_uuid := uuid; env_now := t; env_now2 := t |}.

(** One article, created at time 1000. *)
Definition hello : jsval :=
  JObj {[ "title" := JStr "A"; "content" := JStr "hello world" ]}.

Definition store1 : store :=
  store_of (post_articles toISOString getUser
              (request admin "" (Some hello)) (at_time uuid1 1000) []).

(** The same article with one comment, made at time 2000. *)
Definition store2 : store :=
  store_of (post_comments toISOString
              (request None uuid1
                 (Some (JObj {[ "name" := JStr "N"; "content" := JStr "hi" ]})))
              (at_time uuid2 2000) store1).

Definition uuid3 : string := "0f8fad5b-d9cb-469f-a165-70867728950e".

(** A second article, created at time 3000. *)
Definition store3 : store :=
store_of (post_articles toISOString getUser
            (request admin ""
               (Some (JObj {[ "title" := JStr "B";
                              "content" := JStr "second" ]})))
            (at_time uuid3 3000) store2).

(** The first 150 characters of [long] are its [x]s. *)
Definition long : string :=
"xxxxxxxxxxxxxxxxxxxxxxxxxxxxxxxxxxxxxxxxxxxxxxxxxx" +:+
"xxxxxxxxxxxxxxxxxxxxxxxxxxxxxxxxxxxxxxxxxxxxxxxxxx" +:+
"xxxxxxxxxxxxxxxxxxxxxxxxxxxxxxxxxxxxxxxxxxxxxxxxxx" +:+ "yz".

Definition put (id : string) (o : obj) : Request :=
request admin id (Some (JObj o)).

End Sample.

(** * The rest of the server, and the pages that call it *)

(** ** The signup route *)

(** What [supabase.auth.admin.createUser] answers: [data.user], and
    [error.message] when [error] is set. *)
Record CreateUserResult := {
  created_user : jsval;
  create_error : option string
}.

Section Signup.

(** The identity provider's account creation, given the email, the
    password and the name; it may throw. *)
Variable createUser : jsval → jsval → jsval → result CreateUserResult.

(** [POST /signup] *)
Definition post_signup (req : Request) (env : Env) : M Response :=
  try_catch
    (b ← read_json req;
     email ← field b "email";
     password ← field b "password";
     name ← field b "name";
     if negb (truthy email) || negb (truthy password) || negb (truthy name)
     then mret (json {[ "error" :=
                          JStr "Email, password, and name are required" ]} 400)
     else
       match createUser email password name with
       | Thrown => throw
       | Done r =>
           match create_error r with
           | Some message => mret (json {[ "error" := JStr message ]} 400)
           | None =>
               mret (json (<[ "user" := created_user r ]>
                             {[ "success" := JBool true ]}) 200)
           end
       end)
    (json {[ "error" := JStr "Failed to create user" ]} 500).

End Signup.

(** ** Fields of a request body *)

(** [v.k] for a body [v] that is not [null]: the property of an object,
    [undefined] on an array, a string, a number or a boolean (for the
    names the handlers use). *)
Definition member (v : jsval) (k : string) : jsval :=
  match v with JObj o => prop o k | _ => JUndefined end.

(** The fields an update can set. *)
Definition updatable : list string :=
  ["title"; "content"; "excerpt"; "imageUrl"; "videoUrl"; "audioUrl";
   "updatedAt"].

(** ** Words of a header *)

Fixpoint no_space (s : string) : bool :=
  match s with
  | EmptyString => true
  | String c s' => negb (Ascii.eqb c " ") && no_space s'
  end.

(** ** The pages *)

(** [a || b] on strings *)
Definition str_or (a b : string) : string := if nonempty a then a else b.

(** White space and line terminators, among the code units a [string]
    has: tab, line feed, vertical tab, form feed, carriage return, space
    and no-break space. *)
Definition is_white_space (c : ascii) : bool :=
  let n := nat_of_ascii c in
  ((9 <=? n) && (n <=? 13) || (n =? 32) || (n =? 160))%nat.

Fixpoint trim_start (s : string) : string :=
  match s with
  | EmptyString => EmptyString
  | String c s' => if is_white_space c then trim_start s' else s
  end.

Fixpoint trim_end (s : string) : string :=
  match s with
  | EmptyString => EmptyString
  | String c s' =>
      match trim_end s' with
      | EmptyString => if is_white_space c then EmptyString
                       else String c EmptyString
      | r => String c r
      end
  end.

(** [s.trim()] *)
Definition trim (s : string) : string := trim_end (trim_start s).

Module ArticleEditor.

(** The six [useState] strings of the form. *)
Record State := {
  title : string;
  content : string;
  excerpt : string;
  imageUrl : string;
  videoUrl : string;
  audioUrl : string
}.

(** [handleSubmit]: the object handed to [onSave]. *)
Definition handleSubmit (st : State) : obj :=
  list_to_map [
    ("title", JStr (title st));
    ("content", JStr (content st));
    ("excerpt", JStr (str_or (excerpt st)
                        (substring 0 150 (content st) +:+ "...")));
    ("imageUrl", JStr (str_or (imageUrl st) ""));
    ("videoUrl", JStr (str_or (videoUrl st) ""));
    ("audioUrl", JStr (str_or (audioUrl st) "")) ].

End ArticleEditor.

Module AdminDashboard.

(** The request [handleCreate] sends: [POST /articles] with the caller's
    token and the article data as JSON. *)
Definition handleCreate (accessToken : string) (articleData : obj)
  : Request :=
  {| req_authorization := Some ("Bearer " +:+ accessToken);
     req_param := λ _, EmptyString;
     req_json := Some (JObj articleData) |}.

(** The request [handleUpdate] sends, if any: none without an article
    being edited, else [PUT /articles/<editingArticle.id>]. *)
Definition handleUpdate (accessToken : string)
    (editingArticle : option string) (articleData : obj) : option Request :=
  match editingArticle with
  | None => None
  | Some id =>
      Some {| req_authorization := Some ("Bearer " +:+ accessToken);
              req_param := λ _, id;
              req_json := Some (JObj articleData) |}
  end.

End AdminDashboard.

Module CommentSection.

(** What [handleSubmit] does with the form: an error toast, or the
    request [POST /comments/<articleId>] it sends. *)
Inductive Submit : Type :=
  | Toast (message : string)
  | Send (req : Request).

Section WithKey.

(** [publicAnonKey], imported from [utils/supabase/info]. *)
Variable publicAnonKey : string.

Definition handleSubmit (articleId name content : string) : Submit :=
  if negb (nonempty (trim name)) || negb (nonempty (trim content))
  then Toast "Please fill in all fields"
  else if (String.length (trim name) <? 2)%nat
  then Toast "Name must be at least 2 characters"
  else if (String.length (trim content) <? 3)%nat
  then Toast "Comment must be at least 3 characters"
  else if (1000 <? String.length (trim content))%nat
  then Toast "Comment must be less than 1000 characters"
  else Send {| req_authorization := Some ("Bearer " +:+ publicAnonKey);
               req_param := λ _, articleId;
               req_json := Some (JObj (list_to_map [
                 ("name", JStr (trim name));
                 ("content", JStr (trim content)) ])) |}.

End WithKey.

End CommentSection.

Module App.

Inductive View : Type := home | article | admin_login | admin_dashboard.

(** The five [useState] cells of [App], and the [access_token] item of
    [localStorage]. *)
Record State := {
  currentView : View;
  articles : jsval;
  selectedArticle : jsval;
  loading : bool;
  accessToken : option string;
  stored_token : option string
}.

(** The state at the first render: the token is restored from
    [localStorage]. *)
Definition initial (stored : option string) : State :=
  {| currentView := home; articles := JArr []; selectedArticle := JNull;
     loading := true; accessToken := stored; stored_token := stored |}.

(** How a [fetch] followed by [response.json()] ends. *)
Inductive Fetched : Type :=
  | Failed                 (* fetch or json() threw *)
  | NotOk                  (* !response.ok *)
  | Ok (data : jsval).

Inductive Event : Type :=
  | CheckSessionDone (session_access_token : option string)
  | LoadArticlesStart
  | LoadArticlesDone (r : Fetched)
  | ReadMoreDone (r : Fetched)
  | ClickAdmin
  | BackToHome
  | LoginSuccess (token : string)
  | Logout.

(** [data.k] of a fetched body; reading a field of [null] throws
    ([None]). *)
Definition data_field (data : jsval) (k : string) : option jsval :=
  match data with
  | JUndefined | JNull => None
  | JObj o => Some (prop o k)
  | _ => Some JUndefined
  end.

Definition is_token (t : option string) : bool :=
  match t with Some s => nonempty s | None => false end.

(** [checkSession], [loadArticles], [handleReadMore], the Admin button,
    [handleBackToHome], [handleLoginSuccess] and [handleLogout], each as
    the change of state it makes. *)
Definition step (st : State) (e : Event) : State :=
  match e with
  | CheckSessionDone t =>
      if is_token t
      then {| currentView := currentView st; articles := articles st;
              selectedArticle := selectedArticle st; loading := loading st;
              accessToken := t; stored_token := t |}
      else st
  | LoadArticlesStart =>
      {| currentView := currentView st; articles := articles st;
         selectedArticle := selectedArticle st; loading := true;
         accessToken := accessToken st; stored_token := stored_token st |}
  | LoadArticlesDone r =>
      {| currentView := currentView st;
         articles := match r with
                     | Ok data =>
                         match data_field data "articles" with
                         | Some v => js_or v (JArr [])
                         | None => articles st
                         end
                     | _ => articles st
                     end;
         selectedArticle := selectedArticle st; loading := false;
         accessToken := accessToken st; stored_token := stored_token st |}
  | ReadMoreDone r =>
      match r with
      | Ok data =>
          match data_field data "article" with
          | Some v =>
              {| currentView := article; articles := articles st;
                 selectedArticle := v; loading := loading st;
                 accessToken := accessToken st;
                 stored_token := stored_token st |}
          | None => st
          end
      | _ => st
      end
  | ClickAdmin =>
      {| currentView := admin_login; articles := articles st;
         selectedArticle := selectedArticle st; loading := loading st;
         accessToken := accessToken st; stored_token := stored_token st |}
  | BackToHome =>
      {| currentView := home; articles := articles st;
         selectedArticle := JNull; loading := true;
         accessToken := accessToken st; stored_token := stored_token st |}
  | LoginSuccess token =>
      {| currentView := admin_dashboard; articles := articles st;
         selectedArticle := selectedArticle st; loading := loading st;
         accessToken := Some token; stored_token := Some token |}
  | Logout =>
      {| currentView := home; articles := articles st;
         selectedArticle := selectedArticle st; loading := loading st;
         accessToken := None; stored_token := None |}
  end.



Inductive reachable : State → Prop :=
  | reachable_initial stored : reachable (initial stored)
  | reachable_step st e : reachable st → reachable (step st e).

End App.

(** ** More requests to run the handlers on *)

Module Demo.

(** A request whose [articleId] and [commentId] differ. *)
Definition comment_request (auth : option string)
    (articleId commentId : string) : Request :=
  {| req_authorization := auth;
     req_param := λ name, if String.eqb name "commentId" then commentId
                          else articleId;
     req_json := None |}.

Definition create (o : obj) : Request :=
  Sample.request Sample.admin "" (Some (JObj o)).

Definition form : ArticleEditor.State :=
  {| ArticleEditor.title := "T"; ArticleEditor.content := "body";
     ArticleEditor.excerpt := ""; ArticleEditor.imageUrl := "";
     ArticleEditor.videoUrl := "v"; ArticleEditor.audioUrl := "" |}.

Definition uuid4 : string := "6fa459ea-ee8a-4ca4-894e-db77e160355e".

(** [Sample.store3] with a second comment on its first article, written
    last but stamped 1500, before the comment stamped 2000: a scan meets
    the two comments newest first. *)
Definition store4 : store :=
  store_of (post_comments Sample.toISOString
              (Sample.request None Sample.uuid1
                 (Some (JObj {[ "name" := JStr "M";
                                "content" := JStr "first!" ]})))
              (Sample.at_time uuid4 1500) Sample.store3).

(** The clock readings of the rows of a scan, in its order. *)
Definition stamps (rows : list obj) : list (option Z) :=
  map (λ c, Sample.getTime (prop c "createdAt")) rows.

End Demo.

(** * Properties *)

(** ** The key-value store *)

Module kv_facts.

Lemma find_del_same k s : List.find (kv.has_key k) (kv.del k s) = None.
Proof.
  induction s as [|row s IH]; simpl; [done|].
  destruct (kv.has_key k row) eqn:E; simpl; [done|]. by rewrite E.
Qed.

Lemma get_set_same k v s : kv.get k (kv.set k v s) = Some v.
Proof.
  unfold kv.get, kv.set.
  assert (H : ∀ l, List.find (kv.has_key k) l = None →
              List.find (kv.has_key k) (l ++ [(k, v)]) = Some (k, v)).
  { induction l as [|row l IH]; simpl.
    - intros _. unfold kv.has_key. simpl. by rewrite String.eqb_refl.
    - destruct (kv.has_key k row); [done|]. apply IH. }
  by rewrite (H _ (find_del_same k s)).
Qed.

Lemma get_Some_In k v s : kv.get k s = Some v → In (k, v) s.
Proof.
  unfold kv.get. destruct (List.find (kv.has_key k) s) as [[k' v']|] eqn:E;
    simpl; [|done].
  intros [= ->]. apply find_some in E as [Hin Hk].
  unfold kv.has_key in Hk. simpl in Hk. apply String.eqb_eq in Hk.
  by subst.
Qed.

Lemma get_None_not_In k s : kv.get k s = None → ∀ v, ¬ In (k, v) s.
Proof.
  unfold kv.get. destruct (List.find (kv.has_key k) s) eqn:E; [done|].
  intros _ v Hin. apply (find_none _ _ E) in Hin.
  unfold kv.has_key in Hin. simpl in Hin. by rewrite String.eqb_refl in Hin.
Qed.

Lemma In_del row k s : In row (kv.del k s) ↔ In row s ∧ fst row ≠ k.
Proof.
  unfold kv.del. rewrite filter_In. unfold kv.has_key.
  destruct (String.eqb_spec (fst row) k); simpl; intuition congruence.
Qed.

Lemma get_del_same k s : kv.get k (kv.del k s) = None.
Proof. unfold kv.get. by rewrite find_del_same. Qed.

Lemma In_set row k v s :
  In row (kv.set k v s) ↔ (In row s ∧ fst row ≠ k) ∨ row = (k, v).
Proof.
  unfold kv.set. rewrite in_app_iff, In_del. simpl. intuition congruence.
Qed.

Lemma In_mdel row ks s :
  In row (kv.mdel ks s) ↔ In row s ∧ ¬ In (fst row) ks.
Proof.
  unfold kv.mdel. rewrite filter_In.
  destruct (existsb (String.eqb (fst row)) ks) eqn:E; simpl.
  - apply existsb_exists in E as (k & Hk & Heq).
    apply String.eqb_eq in Heq. subst. intuition congruence.
  - split; [|intuition congruence]. intros [Hin _]. split; [done|]. intros Hk.
    assert (existsb (String.eqb (fst row)) ks = true); [|congruence].
    apply existsb_exists. exists (fst row). by rewrite String.eqb_refl.
Qed.

Lemma In_getByPrefix row p s :
  In row (kv.getByPrefix p s) ↔ In row s ∧ String.prefix p (fst row) = true.
Proof. unfold kv.getByPrefix. by rewrite filter_In. Qed.

Lemma getByPrefix_nil p s :
  (∀ row, In row s → String.prefix p (fst row) = false) →
  kv.getByPrefix p s = [].
Proof.
  intros H. destruct (kv.getByPrefix p s) as [|row l] eqn:E; [done|].
  assert (Hin : In row (kv.getByPrefix p s)) by (rewrite E; by left).
  apply In_getByPrefix in Hin as [Hin Hp]. rewrite (H _ Hin) in Hp. done.
Qed.

Lemma getByPrefix_del p k s :
  String.prefix p k = false →
  kv.getByPrefix p (kv.del k s) = kv.getByPrefix p s.
Proof.
  intros Hk. unfold kv.getByPrefix, kv.del, kv.has_key.
  induction s as [|row s IH]; simpl; [done|].
  destruct (String.eqb_spec (fst row) k) as [->|Hne]; simpl.
  - by rewrite Hk.
  - by rewrite IH.
Qed.

End kv_facts.

Lemma get_None_iff k s :
  kv.get k s = None ↔ ∀ row, In row s → fst row ≠ k.
Proof.
  split.
  - intros H [k' v] Hin Hk. simpl in Hk. subst.
    by apply (kv_facts.get_None_not_In _ _ H v).
  - intros H. destruct (kv.get k s) as [v|] eqn:E; [|done].
    apply kv_facts.get_Some_In in E. by apply H in E.
Qed.

Lemma mdel_nil s : kv.mdel [] s = s.
Proof.
  induction s as [|row s IH]; [done|]. unfold kv.mdel. simpl. f_equal. exact IH.
Qed.

(** ** Keys *)

Lemma article_key_eq id : article_key id = String "a" (String "r" (String "t"
  (String "i" (String "c" (String "l" (String "e" (String ":" id))))))).
Proof. reflexivity. Qed.

Lemma comment_key_eq a c : comment_key a c = String "c" (String "o" (String "m"
  (String "m" (String "e" (String "n" (String "t" (String ":"
  (a +:+ String ":" c)))))))).
Proof. reflexivity. Qed.

Lemma comment_prefix_eq a : comment_prefix a = String "c" (String "o"
  (String "m" (String "m" (String "e" (String "n" (String "t" (String ":"
  (a +:+ ":")))))))).
Proof. reflexivity. Qed.

Lemma prefix_cons c s1 s2 :
  String.prefix (String c s1) (String c s2) = String.prefix s1 s2.
Proof. simpl. by destruct (ascii_dec c c). Qed.

Lemma prefix_cons_inv c1 c2 s1 s2 :
  String.prefix (String c1 s1) (String c2 s2) = true →
  c1 = c2 ∧ String.prefix s1 s2 = true.
Proof. simpl. by destruct (ascii_dec c1 c2). Qed.

Ltac keys := rewrite ?article_key_eq, ?comment_key_eq, ?comment_prefix_eq in *.

Lemma article_key_inj id id' : article_key id = article_key id' → id = id'.
Proof. keys. congruence. Qed.

Lemma article_key_not_comment id articleId commentId :
  article_key id ≠ comment_key articleId commentId.
Proof. keys. congruence. Qed.

Lemma comment_prefix_not_article a id :
  String.prefix (comment_prefix a) (article_key id) = false.
Proof. keys. reflexivity. Qed.

Lemma comment_family_not_article id :
  String.prefix "comment:" (article_key id) = false.
Proof. keys. reflexivity. Qed.

Lemma article_prefix_article id :
  String.prefix "article:" (article_key id) = true.
Proof. keys. rewrite !prefix_cons. by destruct id. Qed.

Lemma article_prefix_not_comment articleId commentId :
  String.prefix "article:" (comment_key articleId commentId) = false.
Proof. keys. reflexivity. Qed.

Lemma comment_prefix_own_key articleId commentId :
  String.prefix (comment_prefix articleId) (comment_key articleId commentId)
  = true.
Proof.
  keys. rewrite !prefix_cons.
  induction articleId as [|c a IH].
  - change (String.prefix (String ":" "") (String ":" commentId) = true).
    rewrite prefix_cons. by destruct commentId.
  - change (String.prefix (String c (a +:+ ":"))
              (String c (a +:+ String ":" commentId)) = true).
    by rewrite prefix_cons.
Qed.

(** A key that continues [x:] has a colon after [x]. *)
Lemma prefix_colon_has_colon x s :
  String.prefix (x +:+ ":") s = true → no_colon s = false.
Proof.
  revert s. induction x as [|c x IH]; intros [|d s] H; try done.
  - change (String.prefix (String ":" "") (String d s) = true) in H.
    apply prefix_cons_inv in H as [<- _]. reflexivity.
  - change (String.prefix (String c (x +:+ ":")) (String d s) = true) in H.
    apply prefix_cons_inv in H as [<- H]. simpl. rewrite (IH _ H).
    by destruct (negb _).
Qed.

(** With colon-free segments, the article segment of a comment key is
    determined by the key. *)
Lemma comment_prefix_segment x a c :
  no_colon a = true → no_colon c = true →
  String.prefix (comment_prefix x) (comment_key a c) = true → x = a.
Proof.
  keys. rewrite !prefix_cons. revert a.
  induction x as [|d x IH]; intros [|e a] Ha Hc H.
  - done.
  - change (String.prefix (String ":" "") (String e (a +:+ String ":" c))
            = true) in H.
    apply prefix_cons_inv in H as [<- _]. done.
  - change (String.prefix (String d (x +:+ ":")) (String ":" c) = true) in H.
    apply prefix_cons_inv in H as [-> H].
    apply prefix_colon_has_colon in H. congruence.
  - change (String.prefix (String d (x +:+ ":"))
              (String e (a +:+ String ":" c)) = true) in H.
    apply prefix_cons_inv in H as [-> H]. simpl in Ha.
    apply andb_prop in Ha as [_ Ha]. f_equal. by apply IH.
Qed.

Lemma uuid_char_no_colon i c : uuid_char i c = true → Ascii.eqb c ":" = false.
Proof.
  unfold uuid_char. destruct (_ || _)%bool.
  - intros ->%Ascii.eqb_eq. reflexivity.
  - destruct (Ascii.eqb_spec c ":") as [->|]; [|done]. by vm_compute.
Qed.

Lemma uuid_chars_no_colon i s : uuid_chars i s = true → no_colon s = true.
Proof.
  revert i. induction s as [|c s IH]; intros i; simpl; [done|].
  intros [Hc Hs]%andb_prop. rewrite (uuid_char_no_colon _ _ Hc). simpl.
  by apply (IH (S i)).
Qed.

Lemma is_uuid_no_colon s : is_uuid s = true → no_colon s = true.
Proof.
  unfold is_uuid. intros [_ H]%andb_prop. by apply uuid_chars_no_colon in H.
Qed.

(** ** Sorting *)

Section Sorting.

Context {A : Type} (cmp : A → A → option Z) (f : A → Z).

Lemma sort_insert_perm x l : Permutation (sort_insert cmp x l) (x :: l).
Proof.
  induction l as [|y l IH]; simpl; [done|].
  destruct (swap_needed (cmp x y)); [|done].
  rewrite IH. apply perm_swap.
Qed.

Lemma js_sort_perm l : Permutation (js_sort cmp l) l.
Proof.
  induction l as [|x l IH]; simpl; [done|].
  rewrite sort_insert_perm. by constructor.
Qed.

Lemma js_sort_In x l : In x (js_sort cmp l) ↔ In x l.
Proof.
  split; apply Permutation_in; [|symmetry]; apply js_sort_perm.
Qed.

Lemma sort_insert_sorted x l :
  (∀ y, In y l → cmp x y = Some (f x - f y)) →
  StronglySorted (λ a b, f a ≤ f b) l →
  StronglySorted (λ a b, f a ≤ f b) (sort_insert cmp x l).
Proof.
  induction l as [|y l IH]; intros Hcmp Hs; simpl.
  - repeat constructor.
  - apply StronglySorted_inv in Hs as [Hs Hy].
    rewrite (Hcmp y) by (by left). simpl.
    destruct (Z.ltb_spec 0 (f x - f y)).
    + constructor.
      * apply IH; [|done]. intros z Hz. apply Hcmp. by right.
      * apply List.Forall_forall. intros z Hz.
        apply (Permutation_in _ (sort_insert_perm x l)) in Hz as [<-|Hz];
          [lia|].
        by apply (proj1 (List.Forall_forall _ _) Hy).
    + constructor; [by constructor|]. constructor; [lia|].
      apply List.Forall_forall. intros z Hz.
      apply (proj1 (List.Forall_forall _ _) Hy) in Hz. lia.
Qed.

Lemma js_sort_sorted l :
  (∀ x y, In x l → In y l → cmp x y = Some (f x - f y)) →
  StronglySorted (λ a b, f a ≤ f b) (js_sort cmp l).
Proof.
  induction l as [|x l IH]; intros Hcmp; simpl; [constructor|].
  apply sort_insert_sorted.
  - intros y Hy. apply (proj1 (js_sort_In _ _)) in Hy.
    apply Hcmp; [left|right]; done.
  - apply IH. intros y z Hy Hz. apply Hcmp; right; done.
Qed.

Lemma sorted_appears_before l x y :
  StronglySorted (λ a b, f a ≤ f b) l →
  In x l → In y l → f y < f x → appears_before y x l.
Proof.
  induction 1 as [|a l Hs IH Ha]; intros Hx Hy Hlt; [done|].
  destruct Hy as [->|Hy], Hx as [->|Hx].
  - lia.
  - apply list_elem_of_In, list_elem_of_lookup in Hx as [j Hj].
    exists 0%nat, (S j). split; [lia|done].
  - apply (proj1 (List.Forall_forall _ _) Ha) in Hy. lia.
  - destruct (IH Hx Hy Hlt) as (i & j & Hij & Hi & Hj).
    exists (S i), (S j). split; [lia|done].
Qed.

Lemma sorted_weaken (R : A → A → Prop) l :
  StronglySorted (λ a b, f a ≤ f b) l →
  (∀ a b, In a l → In b l → f a ≤ f b → R a b) →
  StronglySorted R l.
Proof.
  induction 1 as [|a l Hs IH Ha]; intros HR; constructor.
  - apply IH. intros b c Hb Hc. apply HR; by right.
  - apply List.Forall_forall. intros b Hb. apply HR; [by left|by right|].
    by apply (proj1 (List.Forall_forall _ _) Ha).
Qed.

End Sorting.

(** ** The handlers *)

Ltac run :=
  unfold try_catch, mbind, M_bind, mret, M_ret, throw, read_json, field,
    substring_dots, kv_get, kv_set, kv_del, kv_mdel, kv_getByPrefix,
    store_of, calls_of, response_of;
  simpl.

Lemma prop_insert (o : obj) k v k' :
  prop (<[ k := v ]> o) k' = if String.eqb k k' then v else prop o k'.
Proof.
  unfold prop. destruct (String.eqb_spec k k') as [->|Hne].
  - by rewrite lookup_insert_eq.
  - by rewrite lookup_insert_ne.
Qed.

Ltac prop_eq := rewrite ?prop_insert; simpl; done.

Lemma nonempty_length s : (0 < String.length s)%nat → nonempty s = true.
Proof. destruct s; simpl; [lia|done]. Qed.

Lemma substring_prefix n s : String.prefix (substring 0 n s) s = true.
Proof.
  revert n. induction s as [|c s IH]; intros [|n]; simpl; try done.
  destruct (ascii_dec c c); [apply IH|done].
Qed.

Lemma substring_length n s :
  (n ≤ String.length s)%nat → String.length (substring 0 n s) = n.
Proof.
  revert n. induction s as [|c s IH]; intros [|n]; simpl; try done; try lia.
  intros H. f_equal. apply IH. lia.
Qed.

Section ServerFacts.

Variable toISOString : Z → string.
Variable getTime : jsval → option Z.
Variable getUser : string → AuthResult.

(** Reading back a timestamp the runtime printed gives the instant that was
    printed. *)
Hypothesis getTime_toISOString :
  ∀ t, valid_time t → getTime (JStr (toISOString t)) = Some t.

Lemma verifyAuth_cases req :
  verifyAuth getUser req = JNull
  ∨ ∃ id, verifyAuth getUser req = JStr id ∧ nonempty id = true.
Proof. unfold verifyAuth. repeat case_match; eauto. Qed.

(** The three ways a credential fails to resolve. *)
Lemma verifyAuth_rejects req :
  req_authorization req = None
  ∨ (∃ h, req_authorization req = Some h ∧ split_space h !! 1%nat = None)
  ∨ (∃ h token, req_authorization req = Some h
       ∧ split_space h !! 1%nat = Some token
       ∧ (auth_error (getUser token) = true
          ∨ auth_user_id (getUser token) = None)) →
  verifyAuth getUser req = JNull.
Proof.
  unfold verifyAuth.
  intros [->|[(h & -> & ->)|(h & token & -> & -> & H)]]; try done.
  destruct (nonempty token); simpl; [|done].
  destruct H as [-> | ->]; [done|]. by destruct (auth_error _).
Qed.

(** C7: a create-article, update-article, delete-article or delete-comment
    request whose credential does not resolve to an identity is answered
    401 Unauthorized, without a single call to the store, which is left as
    it was; a create-comment request is answered the same whatever its
    Authorization header, present or not. *)
Theorem unresolved_caller_is_unauthorized req env s :
  verifyAuth getUser req = JNull →
  post_articles toISOString getUser req env s = (Done unauthorized, s, [])
  ∧ put_article toISOString getUser req env s = (Done unauthorized, s, [])
  ∧ delete_article getUser req env s = (Done unauthorized, s, [])
  ∧ delete_comment getUser req env s = (Done unauthorized, s, [])
  ∧ status unauthorized = 401
  ∧ ∀ auth, post_comments toISOString (with_authorization auth req) env s
            = post_comments toISOString req env s.
Proof.
  intros H.
  unfold post_articles, put_article, delete_article, delete_comment.
  rewrite H. repeat split; reflexivity.
Qed.

(** C2: a create-article request by a resolved caller, with a non-empty
    title, a content of at least 150 characters and no excerpt, stores
    under the article's key an article whose excerpt is the first 150
    characters of the content followed by three dots. *)
Theorem created_article_excerpt req env s b content :
  truthy (verifyAuth getUser req) = true →
  req_json req = Some (JObj b) →
  truthy (prop b "title") = true →
  b !! "content" = Some (JStr content) →
  (150 ≤ String.length content)%nat →
  b !! "excerpt" = None →
  ∃ article first150,
    response_of (post_articles toISOString getUser req env s)
    = Some (json (<[ "article" := JObj article ]>
                    {[ "success" := JBool true ]}) 200)
    ∧ kv.get (article_key (env_uuid env))
        (store_of (post_articles toISOString getUser req env s))
      = Some article
    ∧ prop article "excerpt" = JStr (first150 +:+ "...")
    ∧ String.length first150 = 150%nat
    ∧ String.prefix first150 content = true.
Proof.
  intros Hauth Hb Ht Hc Hlen He.
  assert (Hc' : prop b "content" = JStr content) by (unfold prop; by rewrite Hc).
  assert (He' : prop b "excerpt" = JUndefined) by (unfold prop; by rewrite He).
  assert (Hne : nonempty content = true) by (apply nonempty_length; lia).
  exists (list_to_map [
    ("id", JStr (env_uuid env)); ("title", prop b "title");
    ("content", JStr content);
    ("excerpt", JStr (substring 0 150 content +:+ "..."));
    ("imageUrl", js_or (prop b "imageUrl") JNull);
    ("videoUrl", js_or (prop b "videoUrl") JNull);
    ("audioUrl", js_or (prop b "audioUrl") JNull);
    ("authorId", verifyAuth getUser req);
    ("createdAt", JStr (toISOString (env_now env)));
    ("updatedAt", JStr (toISOString (env_now2 env))) ]),
    (substring 0 150 content).
  unfold post_articles. rewrite Hauth. run. rewrite Hb. simpl.
  rewrite Hc', He', Ht. simpl. rewrite Hne. simpl.
  split; [reflexivity|]. split; [apply kv_facts.get_set_same|].
  split; [reflexivity|]. split; [by apply substring_length|].
  apply substring_prefix.
Qed.

Lemma put_article_run req env s existing b :
  truthy (verifyAuth getUser req) = true →
  kv.get (article_key (req_param req "id")) s = Some existing →
  req_json req = Some (JObj b) →
  let updated :=
    updatedArticle toISOString existing (prop b "title") (prop b "content")
      (prop b "excerpt") (prop b "imageUrl") (prop b "videoUrl")
      (prop b "audioUrl") (env_now env) in
  put_article toISOString getUser req env s
  = (Done (json (<[ "article" := JObj updated ]>
                   {[ "success" := JBool true ]}) 200),
     kv.set (article_key (req_param req "id")) updated s,
     [KvGet (article_key (req_param req "id"));
      KvSet (article_key (req_param req "id")) updated]).
Proof.
  intros Hauth Hget Hb. unfold put_article. rewrite Hauth. run.
  rewrite Hget, Hb. reflexivity.
Qed.

Lemma prop_absent (o : obj) k : o !! k = None → prop o k = JUndefined.
Proof. unfold prop. by intros ->. Qed.

Lemma prop_present (o : obj) k v : o !! k = Some v → prop o k = v.
Proof. unfold prop. by intros ->. Qed.

(** C4: in an update of an existing article, each of [imageUrl],
    [videoUrl] and [audioUrl] keeps its stored value when the request does
    not have the field, and takes the request's value when it has one, the
    empty string and [null] included. *)
Theorem update_media_url req env s existing b f :
  In f ["imageUrl"; "videoUrl"; "audioUrl"] →
  truthy (verifyAuth getUser req) = true →
  kv.get (article_key (req_param req "id")) s = Some existing →
  req_json req = Some (JObj b) →
  ∃ updated,
    kv.get (article_key (req_param req "id"))
      (store_of (put_article toISOString getUser req env s)) = Some updated
    ∧ (b !! f = None → prop updated f = prop existing f)
    ∧ (b !! f = Some (JStr "") → prop updated f = JStr "")
    ∧ (b !! f = Some JNull → prop updated f = JNull)
    ∧ (∀ v, b !! f = Some v → v ≠ JUndefined → prop updated f = v).
Proof.
  intros Hf Hauth Hget Hb.
  rewrite (put_article_run _ _ _ _ _ Hauth Hget Hb). unfold store_of. simpl.
  eexists. split; [apply kv_facts.get_set_same|].
  assert (Hany : ∀ v, b !! f = Some v → v ≠ JUndefined →
            prop (updatedArticle toISOString existing (prop b "title")
                    (prop b "content") (prop b "excerpt") (prop b "imageUrl")
                    (prop b "videoUrl") (prop b "audioUrl") (env_now env)) f
            = v).
  { intros v Hv Hdef. unfold updatedArticle.
    simpl in Hf. destruct Hf as [<-|[<-|[<-|[]]]];
      rewrite (prop_present _ _ _ Hv); destruct v; try done; prop_eq. }
  split; [|split; [|split]]; [|by intros H; apply Hany..|done].
  intros Hnone. unfold updatedArticle.
  simpl in Hf. destruct Hf as [<-|[<-|[<-|[]]]];
    rewrite (prop_absent _ _ Hnone); simpl; prop_eq.
Qed.

(** C3, amended: an update of an existing article by a resolved caller that
    supplies only a title stores the new title, leaves content, excerpt,
    the three media URLs, createdAt, authorId and id as they were, and sets
    updatedAt to the clock reading of the update; that is strictly later
    than the stored updatedAt exactly when the clock has moved on since
    that one was stamped. *)
Theorem update_title_only req env s existing title :
  truthy (verifyAuth getUser req) = true →
  kv.get (article_key (req_param req "id")) s = Some existing →
  req_json req = Some (JObj {[ "title" := title ]}) →
  nullish title = false →
  ∃ updated,
    kv.get (article_key (req_param req "id"))
      (store_of (put_article toISOString getUser req env s)) = Some updated
    ∧ prop updated "title" = title
    ∧ (∀ f, In f ["content"; "excerpt"; "imageUrl"; "videoUrl"; "audioUrl";
                  "createdAt"; "authorId"; "id"] →
            prop updated f = prop existing f)
    ∧ prop updated "updatedAt" = JStr (toISOString (env_now env))
    ∧ (∀ t0, prop existing "updatedAt" = JStr (toISOString t0) →
             valid_time t0 → valid_time (env_now env) →
             later getTime updated existing "updatedAt" ↔ t0 < env_now env).
Proof.
  intros Hauth Hget Hb Hnn.
  rewrite (put_article_run _ _ _ _ _ Hauth Hget Hb). unfold store_of. simpl.
  eexists. split; [apply kv_facts.get_set_same|].
  assert (Ht : prop ({[ "title" := title ]} : obj) "title" = title)
    by prop_eq.
  assert (Ho : ∀ f, f ≠ "title" →
            prop ({[ "title" := title ]} : obj) f = JUndefined).
  { intros f Hne. unfold prop. by rewrite lookup_singleton_ne. }
  rewrite Ht, !Ho by done. unfold updatedArticle, js_coalesce.
  rewrite Hnn. simpl.
  assert (Hup : prop
    (<["updatedAt":=JStr (toISOString (env_now env))]>
       (<["audioUrl":=prop existing "audioUrl"]>
          (<["videoUrl":=prop existing "videoUrl"]>
             (<["imageUrl":=prop existing "imageUrl"]>
                (<["excerpt":=prop existing "excerpt"]>
                   (<["content":=prop existing "content"]>
                      (<["title":=title]> existing)))))))
    "updatedAt" = JStr (toISOString (env_now env))) by prop_eq.
  split; [prop_eq|]. split; [|split; [exact Hup|]].
  - intros f Hf. simpl in Hf.
    repeat (destruct Hf as [<-|Hf]; [prop_eq|]). done.
  - intros t0 Hold Ht0 Hnow. unfold later. rewrite Hup, Hold.
    rewrite !getTime_toISOString by done. split.
    + intros (ta & tb & [= <-] & [= <-] & Hlt). done.
    + intros Hlt. eauto.
Qed.

(** C6, amended: a create-comment request that names an article id with no
    article in the store never changes the store.  When its body has a
    non-empty name and a non-empty content it is answered 404 Not-Found,
    after one lookup.  Name and content are checked first, before any call
    to the store: a JSON body other than [null] that lacks a non-empty
    name or content is answered 400 Validation-Failed instead, and a body
    that is not JSON, or is [null], is answered 500, again before any
    call to the store. *)
Theorem comment_on_missing_article req env s :
  kv.get (article_key (req_param req "articleId")) s = None →
  store_of (post_comments toISOString req env s) = s
  ∧ (∀ b, req_json req = Some (JObj b) →
          truthy (prop b "name") = true →
          truthy (prop b "content") = true →
          post_comments toISOString req env s
          = (Done article_not_found, s,
             [KvGet (article_key (req_param req "articleId"))])
          ∧ status article_not_found = 404)
  ∧ (∀ v, req_json req = Some v →
          match v with
          | JObj b => truthy (prop b "name") = false
                      ∨ truthy (prop b "content") = false
          | JUndefined | JNull => False
          | _ => True
          end →
          post_comments toISOString req env s
          = (Done (json {[ "error" := JStr "Name and content are required" ]}
                     400), s, []))
  ∧ (req_json req = None ∨ req_json req = Some JNull
     ∨ req_json req = Some JUndefined →
     post_comments toISOString req env s
     = (Done (json {[ "error" := JStr "Failed to create comment" ]} 500),
        s, [])).
Proof.
  intros Hget. split; [|split; [|split]].
  - unfold post_comments. run. destruct (req_json req) as [v|]; [|done].
    destruct v; simpl; try done.
    destruct (negb (truthy (prop o "name")) || negb (truthy (prop o "content")));
      simpl; [done|].
    by rewrite Hget.
  - intros b Hb Hn Hc. split; [|done]. unfold post_comments. run.
    rewrite Hb. simpl. rewrite Hn, Hc. simpl. by rewrite Hget.
  - intros v Hb Hv. unfold post_comments. run. rewrite Hb.
    destruct v; simpl; try done.
    by destruct Hv as [-> | ->]; simpl; [|rewrite orb_true_r].
  - intros H. unfold post_comments. run.
    by destruct H as [-> | [-> | ->]].
Qed.

(** C5: a delete-article request by a resolved caller for an existing
    article X leaves a store with no key [article:X] and no key that starts
    with [comment:X:], however many comments X had, so that listing the
    comments of X afterwards returns the empty list.  The calls to the
    store are, in this order: the lookup of the article, the deletion of
    its key, the prefix scan for its comment keys, and one batch deletion
    of all the keys the scan returned (no call when it returned none). *)
Theorem delete_article_cascade req env s article :
  truthy (verifyAuth getUser req) = true →
  kv.get (article_key (req_param req "id")) s = Some article →
  let X := req_param req "id" in
  let commentKeys := map fst (kv.getByPrefix (comment_prefix X) s) in
  let post := store_of (delete_article getUser req env s) in
  response_of (delete_article getUser req env s) = Some success
  ∧ kv.get (article_key X) post = None
  ∧ (∀ row, In row post →
       fst row ≠ article_key X
       ∧ String.prefix (comment_prefix X) (fst row) = false)
  ∧ (∀ req' env', req_param req' "articleId" = X →
       get_comments getTime req' env' post
       = (Done (json {[ "comments" := JArr [] ]} 200), post,
          [KvGetByPrefix (comment_prefix X)]))
  ∧ calls_of (delete_article getUser req env s)
    = [KvGet (article_key X); KvDel (article_key X);
       KvGetByPrefix (comment_prefix X)]
      ++ match commentKeys with [] => [] | _ => [KvMdel commentKeys] end.
Proof.
  intros Hauth Hget X. fold X in Hget. intros commentKeys post.
  assert (Hrun : delete_article getUser req env s
    = (Done success, kv.mdel commentKeys (kv.del (article_key X) s),
       [KvGet (article_key X); KvDel (article_key X);
        KvGetByPrefix (comment_prefix X)]
       ++ match commentKeys with [] => [] | _ => [KvMdel commentKeys] end)).
  { unfold delete_article. rewrite Hauth. run. fold X. rewrite Hget.
    rewrite kv_facts.getByPrefix_del by apply comment_prefix_not_article.
    fold commentKeys. destruct commentKeys; simpl; [|done].
    by rewrite mdel_nil. }
  assert (Hpost : ∀ row, In row post →
            fst row ≠ article_key X
            ∧ String.prefix (comment_prefix X) (fst row) = false).
  { intros row. unfold post. rewrite Hrun. unfold store_of. simpl.
    rewrite kv_facts.In_mdel, kv_facts.In_del. intros [[Hin Hk] Hnk].
    split; [done|].
    destruct (String.prefix (comment_prefix X) (fst row)) eqn:Hp; [|done].
    destruct Hnk. apply in_map. by apply kv_facts.In_getByPrefix. }
  unfold post in *. rewrite Hrun in *. unfold store_of in *. simpl in *.
  split; [done|]. split; [|split; [done|split; [|done]]].
  - apply get_None_iff. intros row Hin. by apply Hpost.
  - intros req' env' Hp. unfold get_comments. run. rewrite Hp.
    rewrite kv_facts.getByPrefix_nil; [done|]. intros row Hin.
    by apply Hpost.
Qed.

(** *** What each handler does to the store *)

Lemma get_articles_run req env s :
  get_articles getTime req env s
  = (Done (json {[ "articles" := JArr (JObj <$>
        js_sort (newest_first getTime)
          (map snd (kv.getByPrefix "article:" s))) ]} 200),
     s, [KvGetByPrefix "article:"]).
Proof. reflexivity. Qed.

Lemma get_comments_run req env s :
  get_comments getTime req env s
  = (Done (json {[ "comments" := JArr (JObj <$>
        js_sort (oldest_first getTime)
          (map snd (kv.getByPrefix
                      (comment_prefix (req_param req "articleId")) s))) ]} 200),
     s, [KvGetByPrefix (comment_prefix (req_param req "articleId"))]).
Proof. reflexivity. Qed.

Lemma get_article_store req env s : store_of (get_article req env s) = s.
Proof. unfold get_article. run. by destruct (kv.get _ s). Qed.

Lemma post_articles_store req env s :
  store_of (post_articles toISOString getUser req env s) = s
  ∨ ∃ article,
      store_of (post_articles toISOString getUser req env s)
      = kv.set (article_key (env_uuid env)) article s
      ∧ prop article "createdAt" = JStr (toISOString (env_now env))
      ∧ truthy (prop article "title") = true
      ∧ truthy (prop article "content") = true.
Proof.
  unfold post_articles.
  destruct (truthy (verifyAuth getUser req)); simpl; [|by left]. run.
  destruct (req_json req) as [v|]; [|by left].
  destruct v; simpl; try (by left).
  destruct (truthy (prop o "title")) eqn:Ht; simpl; [|by left].
  destruct (truthy (prop o "content")) eqn:Hc; simpl; [|by left].
  destruct (truthy (prop o "excerpt")); simpl.
  - right. eexists. split; [reflexivity|]. split; [prop_eq|].
    split; prop_eq.
  - destruct (prop o "content") eqn:E; simpl; try (by left).
    right. eexists. split; [reflexivity|]. split; [prop_eq|].
    split; prop_eq.
Qed.

Lemma put_article_store req env s :
  store_of (put_article toISOString getUser req env s) = s
  ∨ ∃ existing updated,
      kv.get (article_key (req_param req "id")) s = Some existing
      ∧ store_of (put_article toISOString getUser req env s)
        = kv.set (article_key (req_param req "id")) updated s
      ∧ prop updated "createdAt" = prop existing "createdAt".
Proof.
  unfold put_article.
  destruct (truthy (verifyAuth getUser req)); simpl; [|by left]. run.
  destruct (kv.get _ s) as [existing|] eqn:Hget; [|by left].
  destruct (req_json req) as [v|]; [|by left].
  destruct v; simpl; try (by left);
    right; exists existing; eexists; (split; [done|]);
    (split; [reflexivity|]); unfold updatedArticle; prop_eq.
Qed.

Lemma delete_article_store req env s row :
  In row (store_of (delete_article getUser req env s)) → In row s.
Proof.
  unfold delete_article.
  destruct (truthy (verifyAuth getUser req)); simpl; [|done]. run.
  destruct (kv.get _ s); [|done].
  destruct (0 <? _)%nat; simpl.
  - rewrite kv_facts.In_mdel, kv_facts.In_del. tauto.
  - rewrite kv_facts.In_del. tauto.
Qed.

Lemma post_comments_store req env s :
  store_of (post_comments toISOString req env s) = s
  ∨ ∃ article comment,
      kv.get (article_key (req_param req "articleId")) s = Some article
      ∧ store_of (post_comments toISOString req env s)
        = kv.set (comment_key (req_param req "articleId") (env_uuid env))
            comment s
      ∧ prop comment "articleId" = JStr (req_param req "articleId")
      ∧ prop comment "id" = JStr (env_uuid env)
      ∧ prop comment "createdAt" = JStr (toISOString (env_now env)).
Proof.
  unfold post_comments. run.
  destruct (req_json req) as [v|]; [|by left].
  destruct v; simpl; try (by left).
  destruct (negb _ || negb _); simpl; [by left|].
  destruct (kv.get _ s) as [article|] eqn:Hget; [|by left].
  right. exists article. eexists. split; [done|]. split; [reflexivity|].
  repeat split; prop_eq.
Qed.

Lemma delete_comment_store req env s row :
  In row (store_of (delete_comment getUser req env s)) → In row s.
Proof.
  unfold delete_comment.
  destruct (truthy (verifyAuth getUser req)); simpl; [|done]. run.
  destruct (kv.get _ s); [|done]. simpl. rewrite kv_facts.In_del. tauto.
Qed.

(** *** The rows of a reachable store *)

Lemma article_row_keeps_createdAt k v v' :
  row_ok toISOString (article_key k, v) →
  prop v' "createdAt" = prop v "createdAt" →
  row_ok toISOString (article_key k, v').
Proof.
  intros [(id & t & Hk & Hid & Hc & Ht)|(a & c & t & Hk & _)] Heq; simpl in *.
  - left. exists id, t. simpl. rewrite Heq. done.
  - by apply article_key_not_comment in Hk.
Qed.

Lemma article_key_row_ok k v :
  row_ok toISOString (article_key k, v) → no_colon k = true.
Proof.
  intros [(id & t & Hk & Hid & _)|(a & c & t & Hk & _)]; simpl in *.
  - by apply article_key_inj in Hk as ->.
  - by apply article_key_not_comment in Hk.
Qed.

Lemma handle_rows_ok call req env s :
  (∀ row, In row s → row_ok toISOString row) →
  valid_env env →
  ∀ row, In row (store_of (handle toISOString getTime getUser call req env s))
         → row_ok toISOString row.
Proof.
  intros Hs (Huuid & Hnow & _) row.
  apply is_uuid_no_colon in Huuid.
  destruct call; simpl.
  - rewrite get_articles_run. apply Hs.
  - rewrite get_article_store. apply Hs.
  - destruct (post_articles_store req env s) as [->|(a & -> & Hc & _)];
      [apply Hs|].
    rewrite kv_facts.In_set. intros [[Hin _]| ->]; [by apply Hs|].
    left. exists (env_uuid env), (env_now env). done.
  - destruct (put_article_store req env s) as [->|(e & u & Hget & -> & Hc)];
      [apply Hs|].
    rewrite kv_facts.In_set. intros [[Hin _]| ->]; [by apply Hs|].
    apply kv_facts.get_Some_In, Hs in Hget.
    by apply (article_row_keeps_createdAt _ e).
  - intros Hin. by apply Hs, (delete_article_store req env).
  - rewrite get_comments_run. apply Hs.
  - destruct (post_comments_store req env s)
      as [->|(a & c & Hget & -> & Ha & Hi & Hc)]; [apply Hs|].
    rewrite kv_facts.In_set. intros [[Hin _]| ->]; [by apply Hs|].
    apply kv_facts.get_Some_In, Hs, article_key_row_ok in Hget.
    right. exists (req_param req "articleId"), (env_uuid env), (env_now env).
    done.
  - intros Hin. by apply Hs, (delete_comment_store req env).
Qed.

Lemma reachable_rows_ok s :
  reachable toISOString getTime getUser s →
  ∀ row, In row s → row_ok toISOString row.
Proof.
  induction 1 as [|s call req env _ IH Henv]; [done|].
  by apply handle_rows_ok.
Qed.

Lemma scanned_rows_ok s0 s :
  reachable toISOString getTime getUser s0 → Permutation s0 s →
  ∀ row, In row s → row_ok toISOString row.
Proof.
  intros Hr Hp row Hin. apply (reachable_rows_ok _ Hr).
  by apply (Permutation_in _ (Permutation_sym Hp)).
Qed.

Lemma article_row_time row :
  row_ok toISOString row → String.prefix "article:" (fst row) = true →
  ∃ t, getTime (prop (snd row) "createdAt") = Some t.
Proof.
  intros [(id & t & Hk & Hid & Hc & Ht)|(a & c & t & Hk & _)] Hp.
  - exists t. rewrite Hc. by apply getTime_toISOString.
  - rewrite Hk, article_prefix_not_comment in Hp. done.
Qed.

Lemma comment_row_time row x :
  row_ok toISOString row →
  String.prefix (comment_prefix x) (fst row) = true →
  ∃ t, getTime (prop (snd row) "createdAt") = Some t.
Proof.
  intros [(id & t & Hk & _)|(a & c & t & Hk & _ & _ & _ & _ & Hc & Ht)] Hp.
  - rewrite Hk, comment_prefix_not_article in Hp. done.
  - exists t. rewrite Hc. by apply getTime_toISOString.
Qed.

(** C8: whatever order the store scans its rows in, list-articles returns
    the values of all keys that start with [article:], sorted by createdAt
    with the newest first: of two stored articles, the one with the later
    createdAt comes first in the list. *)
Theorem articles_listed_newest_first s0 s req env :
  reachable toISOString getTime getUser s0 →
  Permutation s0 s →
  ∃ listed,
    get_articles getTime req env s
    = (Done (json {[ "articles" := JArr (JObj <$> listed) ]} 200), s,
       [KvGetByPrefix "article:"])
    ∧ Permutation listed (map snd (kv.getByPrefix "article:" s))
    ∧ StronglySorted (not_earlier getTime "createdAt") listed
    ∧ ∀ keyA A keyB B,
        In (keyA, A) s → String.prefix "article:" keyA = true →
        In (keyB, B) s → String.prefix "article:" keyB = true →
        later getTime B A "createdAt" →
        appears_before B A listed.
Proof.
  intros Hr Hp.
  pose proof (scanned_rows_ok _ _ Hr Hp) as Hok.
  set (l := map snd (kv.getByPrefix "article:" s)).
  set (f := λ a : obj, - default 0 (getTime (prop a "createdAt"))).
  assert (Htime : ∀ a, In a l → ∃ t, getTime (prop a "createdAt") = Some t).
  { intros a (row & <- & [Hin Hpre]%kv_facts.In_getByPrefix)%in_map_iff.
    by apply article_row_time; [apply Hok|]. }
  assert (Hcmp : ∀ a b, In a l → In b l →
            newest_first getTime a b = Some (f a - f b)).
  { intros a b [ta Ha]%Htime [tb Hb]%Htime. unfold newest_first, f.
    rewrite Ha, Hb. simpl. f_equal. lia. }
  pose proof (js_sort_sorted _ f l Hcmp) as Hsorted.
  exists (js_sort (newest_first getTime) l).
  split; [apply get_articles_run|]. split; [apply js_sort_perm|]. split.
  - apply (sorted_weaken f _ _ Hsorted). intros a b Ha Hb Hle.
    apply (proj1 (js_sort_In _ _ _)), Htime in Ha as [ta Ha].
    apply (proj1 (js_sort_In _ _ _)), Htime in Hb as [tb Hb].
    exists ta, tb. unfold f in Hle. rewrite Ha, Hb in Hle. simpl in Hle.
    repeat split; [done..|lia].
  - intros keyA A keyB B HA HpA HB HpB (tb & ta & Hb & Ha & Hlt).
    apply (sorted_appears_before f _ _ _ Hsorted).
    + apply js_sort_In, in_map_iff. exists (keyA, A).
      split; [done|]. by apply kv_facts.In_getByPrefix.
    + apply js_sort_In, in_map_iff. exists (keyB, B).
      split; [done|]. by apply kv_facts.In_getByPrefix.
    + unfold f. rewrite Ha, Hb. simpl. lia.
Qed.

(** C9: whatever order the store scans its rows in, list-comments for an
    article id returns the values of all keys that start with
    [comment:<articleId>:], sorted by createdAt with the oldest first, the
    reverse of the article listing: of two comments, the one with the
    later createdAt comes last. *)
Theorem comments_listed_oldest_first s0 s req env :
  reachable toISOString getTime getUser s0 →
  Permutation s0 s →
  let articleId := req_param req "articleId" in
  ∃ listed,
    get_comments getTime req env s
    = (Done (json {[ "comments" := JArr (JObj <$> listed) ]} 200), s,
       [KvGetByPrefix (comment_prefix articleId)])
    ∧ Permutation listed
        (map snd (kv.getByPrefix (comment_prefix articleId) s))
    ∧ StronglySorted (λ a b, not_earlier getTime "createdAt" b a) listed
    ∧ ∀ keyA A keyB B,
        In (keyA, A) s → String.prefix (comment_prefix articleId) keyA = true →
        In (keyB, B) s → String.prefix (comment_prefix articleId) keyB = true →
        later getTime B A "createdAt" →
        appears_before A B listed.
Proof.
  intros Hr Hp articleId.
  pose proof (scanned_rows_ok _ _ Hr Hp) as Hok.
  set (l := map snd (kv.getByPrefix (comment_prefix articleId) s)).
  set (f := λ a : obj, default 0 (getTime (prop a "createdAt"))).
  assert (Htime : ∀ a, In a l → ∃ t, getTime (prop a "createdAt") = Some t).
  { intros a (row & <- & [Hin Hpre]%kv_facts.In_getByPrefix)%in_map_iff.
    by apply (comment_row_time _ articleId); [apply Hok|]. }
  assert (Hcmp : ∀ a b, In a l → In b l →
            oldest_first getTime a b = Some (f a - f b)).
  { intros a b [ta Ha]%Htime [tb Hb]%Htime. unfold oldest_first, f.
    by rewrite Ha, Hb. }
  pose proof (js_sort_sorted _ f l Hcmp) as Hsorted.
  exists (js_sort (oldest_first getTime) l).
  split; [apply get_comments_run|]. split; [apply js_sort_perm|]. split.
  - apply (sorted_weaken f _ _ Hsorted). intros a b Ha Hb Hle.
    apply (proj1 (js_sort_In _ _ _)), Htime in Ha as [ta Ha].
    apply (proj1 (js_sort_In _ _ _)), Htime in Hb as [tb Hb].
    exists tb, ta. unfold f in Hle. rewrite Ha, Hb in Hle. simpl in Hle.
    done.
  - intros keyA A keyB B HA HpA HB HpB (tb & ta & Hb & Ha & Hlt).
    apply (sorted_appears_before f _ _ _ Hsorted).
    + apply js_sort_In, in_map_iff. exists (keyB, B).
      split; [done|]. by apply kv_facts.In_getByPrefix.
    + apply js_sort_In, in_map_iff. exists (keyA, A).
      split; [done|]. by apply kv_facts.In_getByPrefix.
    + unfold f. by rewrite Ha, Hb.
Qed.

(** C10: the only row create-comment ever writes is a record with fields
    articleId and id under the key [comment:<articleId>:<id>]; so in every
    store the service can reach, a row whose key starts with [comment:] is
    stored under [comment:<articleId>:<commentId>] for the articleId and
    the id that its record carries (neither has a colon, so the key has
    only this reading); hence a prefix scan for [comment:X:] returns only
    records whose articleId is X. *)
Theorem comment_record_matches_key s0 s :
  reachable toISOString getTime getUser s0 →
  Permutation s0 s →
  (∀ req env,
     let articleId := req_param req "articleId" in
     let commentId := env_uuid env in
     store_of (post_comments toISOString req env s) = s
     ∨ ∃ comment,
         store_of (post_comments toISOString req env s)
         = kv.set (comment_key articleId commentId) comment s
         ∧ prop comment "articleId" = JStr articleId
         ∧ prop comment "id" = JStr commentId)
  ∧ (∀ key c, In (key, c) s → String.prefix "comment:" key = true →
     ∃ articleId commentId,
       key = comment_key articleId commentId
       ∧ no_colon articleId = true ∧ no_colon commentId = true
       ∧ prop c "articleId" = JStr articleId
       ∧ prop c "id" = JStr commentId)
  ∧ (∀ X key c, In (key, c) (kv.getByPrefix (comment_prefix X) s) →
       prop c "articleId" = JStr X).
Proof.
  intros Hr Hp. pose proof (scanned_rows_ok _ _ Hr Hp) as Hok.
  split; [|split].
  - intros req env articleId commentId.
    destruct (post_comments_store req env s)
      as [->|(a & c & _ & -> & Ha & Hi & _)]; [by left|].
    right. by exists c.
  - intros key c Hin Hpre.
    destruct (Hok _ Hin)
      as [(id & t & Hk & _)|(a & i & t & Hk & Ha & Hi & Hca & Hci & _)];
      simpl in *.
    + subst key. by rewrite comment_family_not_article in Hpre.
    + by exists a, i.
  - intros X key c [Hin Hpre]%kv_facts.In_getByPrefix.
    destruct (Hok _ Hin)
      as [(id & t & Hk & _)|(a & i & t & Hk & Ha & Hi & Hca & Hci & _)];
      simpl in *.
    + subst key. by rewrite comment_prefix_not_article in Hpre.
    + subst key. by rewrite (comment_prefix_segment X a i Ha Hi Hpre).
Qed.

End ServerFacts.

(** ** The handlers on concrete requests *)

Lemma sample_getTime_toISOString t :
  valid_time t → Sample.getTime (JStr (Sample.toISOString t)) = Some t.
Proof.
  intros _. unfold Sample.getTime, Sample.toISOString.
  assert (H : ∀ d, Z.of_int <$> NilZero.int_of_string (NilZero.string_of_int d)
              = Some (Z.of_int d)).
  { intros [[]|[]];
      first [ by rewrite NilZero.isi_posnil | by rewrite NilZero.isi_negnil
            | by rewrite NilZero.isi ]. }
  rewrite H. f_equal. apply DecimalZ.of_to.
Qed.

(** The row a key is known to have. *)
Lemma get_present k s :
  match kv.get k s with Some _ => true | None => false end = true →
  kv.get k s = Some (default ∅ (kv.get k s)).
Proof. by destruct (kv.get k s). Qed.

Lemma sample_env_valid uuid t :
  is_uuid uuid = true → valid_time t → valid_env (Sample.at_time uuid t).
Proof. by intros Hu Ht. Qed.

Lemma sample_store1_reachable :
  reachable Sample.toISOString Sample.getTime Sample.getUser Sample.store1.
Proof.
  apply (reachable_step _ _ _ [] PostArticles).
  - constructor.
  - apply sample_env_valid; [reflexivity|]. unfold valid_time. lia.
Qed.

Lemma sample_store2_reachable :
  reachable Sample.toISOString Sample.getTime Sample.getUser Sample.store2.
Proof.
  apply (reachable_step _ _ _ Sample.store1 PostComments).
  - apply sample_store1_reachable.
  - apply sample_env_valid; [reflexivity|]. unfold valid_time. lia.
Qed.

Lemma sample_store3_reachable :
  reachable Sample.toISOString Sample.getTime Sample.getUser Sample.store3.
Proof.
  apply (reachable_step _ _ _ Sample.store2 PostArticles).
  - apply sample_store2_reachable.
  - apply sample_env_valid; [reflexivity|]. unfold valid_time. lia.
Qed.

(** C1: the update handler stores an empty title.  The article of
    [Sample.store1] has the title [A]; after an update by the admin with
    the body [{ title: "" }], answered 200, the article stored under the
    same key has the empty string as its title, in a store the service has
    reached. *)
Theorem update_stores_empty_title :
  let req := Sample.put Sample.uuid1 {[ "title" := JStr "" ]} in
  let env := Sample.at_time Sample.uuid2 5000 in
  let run := put_article Sample.toISOString Sample.getUser req env
               Sample.store1 in
  reachable Sample.toISOString Sample.getTime Sample.getUser (store_of run)
  ∧ status <$> response_of run = Some 200
  ∧ ∃ before after,
      kv.get (article_key Sample.uuid1) Sample.store1 = Some before
      ∧ prop before "title" = JStr "A"
      ∧ kv.get (article_key Sample.uuid1) (store_of run) = Some after
      ∧ prop after "title" = JStr ""
      ∧ truthy (prop after "title") = false.
Proof.
  intros req env run. split; [|split].
  - apply (reachable_step _ _ _ Sample.store1 PutArticle).
    + apply sample_store1_reachable.
    + apply sample_env_valid; [reflexivity|]. unfold valid_time. lia.
  - by vm_compute.
  - exists (default ∅ (kv.get (article_key Sample.uuid1) Sample.store1)),
      (default ∅ (kv.get (article_key Sample.uuid1) (store_of run))).
    split; [apply get_present; by vm_compute|]. split; [by vm_compute|].
    split; [apply get_present; by vm_compute|]. split; by vm_compute.
Qed.

(** C3 as stated fails when the clock has not moved: the article of
    [Sample.store1] was stamped at 1000; an update with only a title, run
    at clock reading 1000, stores the new title and an updatedAt that is
    not later than the one before. *)
Lemma update_same_instant_not_later :
  let req := Sample.put Sample.uuid1 {[ "title" := JStr "B" ]} in
  let env := Sample.at_time Sample.uuid2 1000 in
  let run := put_article Sample.toISOString Sample.getUser req env
               Sample.store1 in
  truthy (verifyAuth Sample.getUser req) = true
  ∧ ∃ existing updated,
      kv.get (article_key Sample.uuid1) Sample.store1 = Some existing
      ∧ kv.get (article_key Sample.uuid1) (store_of run) = Some updated
      ∧ prop updated "title" = JStr "B"
      ∧ Sample.getTime (prop existing "updatedAt") = Some 1000
      ∧ Sample.getTime (prop updated "updatedAt") = Some 1000
      ∧ ¬ later Sample.getTime updated existing "updatedAt".
Proof.
  intros req env run. split; [reflexivity|].
  exists (default ∅ (kv.get (article_key Sample.uuid1) Sample.store1)),
    (default ∅ (kv.get (article_key Sample.uuid1) (store_of run))).
  split; [apply get_present; by vm_compute|].
  split; [apply get_present; by vm_compute|].
  split; [by vm_compute|]. split; [by vm_compute|]. split; [by vm_compute|].
  intros (ta & tb & Ha & Hb & Hlt).
  vm_compute in Ha, Hb. injection Ha as <-. injection Hb as <-. lia.
Qed.

(** C6 as stated fails when the body lacks a name: against a store with no
    article [Sample.uuid3], a create-comment request for it with an empty
    body is answered 400, not 404. *)
Lemma comment_without_name_is_400 :
  let req := Sample.request None Sample.uuid3 (Some (JObj ∅)) in
  let run := post_comments Sample.toISOString req
               (Sample.at_time Sample.uuid2 2000) Sample.store1 in
  kv.get (article_key (req_param req "articleId")) Sample.store1 = None
  ∧ status <$> response_of run = Some 400
  ∧ status <$> response_of run ≠ Some (status article_not_found).
Proof. by vm_compute. Qed.

(** *** The theorems at concrete requests *)

Lemma unresolved_caller_is_unauthorized_witness :
  let req := Sample.request (Some "Bearer wrong") Sample.uuid1
               (Some (JObj {[ "name" := JStr "N"; "content" := JStr "hi" ]})) in
  let env := Sample.at_time Sample.uuid2 2000 in
  verifyAuth Sample.getUser req = JNull
  ∧ post_articles Sample.toISOString Sample.getUser req env Sample.store1
    = (Done unauthorized, Sample.store1, [])
  ∧ delete_article Sample.getUser req env Sample.store1
    = (Done unauthorized, Sample.store1, [])
  ∧ post_comments Sample.toISOString (with_authorization None req) env
      Sample.store1
    = post_comments Sample.toISOString req env Sample.store1
  ∧ status <$> response_of (post_comments Sample.toISOString req env
                              Sample.store1) = Some 200.
Proof.
  intros req env.
  assert (H : verifyAuth Sample.getUser req = JNull) by reflexivity.
  split; [exact H|].
  pose proof (unresolved_caller_is_unauthorized Sample.toISOString
                Sample.getUser req env Sample.store1 H)
    as (H1 & _ & H3 & _ & _ & H5).
  split; [exact H1|]. split; [exact H3|]. split; [exact (H5 None)|].
  by vm_compute.
Defined.

Lemma created_article_excerpt_witness :
  let b : obj := {[ "title" := JStr "T"; "content" := JStr Sample.long ]} in
  let req := Sample.request Sample.admin "" (Some (JObj b)) in
  let env := Sample.at_time Sample.uuid1 1000 in
  ∃ article first150,
    response_of (post_articles Sample.toISOString Sample.getUser req env [])
    = Some (json (<[ "article" := JObj article ]>
                    {[ "success" := JBool true ]}) 200)
    ∧ kv.get (article_key (env_uuid env))
        (store_of (post_articles Sample.toISOString Sample.getUser req env []))
      = Some article
    ∧ prop article "excerpt" = JStr (first150 +:+ "...")
    ∧ String.length first150 = 150%nat
    ∧ String.prefix first150 Sample.long = true.
Proof.
  intros b req env.
  apply (created_article_excerpt Sample.toISOString Sample.getUser req env []
           b Sample.long).
  - reflexivity.
  - reflexivity.
  - by vm_compute.
  - by vm_compute.
  - vm_compute. lia.
  - by vm_compute.
Defined.

Lemma update_media_url_witness :
  let b : obj := {[ "imageUrl" := JNull ]} in
  let req := Sample.put Sample.uuid1 b in
  let env := Sample.at_time Sample.uuid2 5000 in
  ∃ updated,
    kv.get (article_key (req_param req "id"))
      (store_of (put_article Sample.toISOString Sample.getUser req env
                   Sample.store1)) = Some updated
    ∧ (b !! "imageUrl" = None →
       prop updated "imageUrl"
       = prop (default ∅ (kv.get (article_key Sample.uuid1) Sample.store1))
           "imageUrl")
    ∧ (b !! "imageUrl" = Some (JStr "") → prop updated "imageUrl" = JStr "")
    ∧ (b !! "imageUrl" = Some JNull → prop updated "imageUrl" = JNull)
    ∧ (∀ v, b !! "imageUrl" = Some v → v ≠ JUndefined →
            prop updated "imageUrl" = v).
Proof.
  intros b req env.
  apply (update_media_url Sample.toISOString Sample.getUser req env
           Sample.store1
           (default ∅ (kv.get (article_key Sample.uuid1) Sample.store1))
           b "imageUrl").
  - simpl. tauto.
  - reflexivity.
  - apply get_present. by vm_compute.
  - reflexivity.
Defined.

Lemma update_title_only_witness :
  let req := Sample.put Sample.uuid1 {[ "title" := JStr "B" ]} in
  let env := Sample.at_time Sample.uuid2 5000 in
  let existing :=
    default ∅ (kv.get (article_key Sample.uuid1) Sample.store1) in
  ∃ updated,
    kv.get (article_key (req_param req "id"))
      (store_of (put_article Sample.toISOString Sample.getUser req env
                   Sample.store1)) = Some updated
    ∧ prop updated "title" = JStr "B"
    ∧ (∀ f, In f ["content"; "excerpt"; "imageUrl"; "videoUrl"; "audioUrl";
                  "createdAt"; "authorId"; "id"] →
            prop updated f = prop existing f)
    ∧ prop updated "updatedAt" = JStr (Sample.toISOString (env_now env))
    ∧ (∀ t0, prop existing "updatedAt" = JStr (Sample.toISOString t0) →
             valid_time t0 → valid_time (env_now env) →
             later Sample.getTime updated existing "updatedAt"
             ↔ t0 < env_now env).
Proof.
  intros req env existing.
  apply (update_title_only Sample.toISOString Sample.getTime Sample.getUser
           sample_getTime_toISOString req env Sample.store1 existing
           (JStr "B")).
  - reflexivity.
  - apply get_present. by vm_compute.
  - reflexivity.
  - reflexivity.
Defined.

Lemma comment_on_missing_article_witness :
  let req := Sample.request None Sample.uuid3
               (Some (JObj {[ "name" := JStr "N"; "content" := JStr "hi" ]})) in
  let unnamed := Sample.request None Sample.uuid3
                   (Some (JObj {[ "content" := JStr "hi" ]})) in
  let null := Sample.request None Sample.uuid3 (Some JNull) in
  let env := Sample.at_time Sample.uuid2 2000 in
  kv.get (article_key Sample.uuid3) Sample.store1 = None
  ∧ store_of (post_comments Sample.toISOString req env Sample.store1)
    = Sample.store1
  ∧ post_comments Sample.toISOString req env Sample.store1
    = (Done article_not_found, Sample.store1,
       [KvGet (article_key Sample.uuid3)])
  ∧ post_comments Sample.toISOString unnamed env Sample.store1
    = (Done (json {[ "error" := JStr "Name and content are required" ]} 400),
       Sample.store1, [])
  ∧ post_comments Sample.toISOString null env Sample.store1
    = (Done (json {[ "error" := JStr "Failed to create comment" ]} 500),
       Sample.store1, []).
Proof.
  intros req unnamed null env.
  assert (H : kv.get (article_key Sample.uuid3) Sample.store1 = None)
    by (by vm_compute).
  split; [exact H|].
  destruct (comment_on_missing_article Sample.toISOString req env
              Sample.store1 H) as (Hs & Hr & _ & _).
  destruct (comment_on_missing_article Sample.toISOString unnamed env
              Sample.store1 H) as (_ & _ & H400 & _).
  destruct (comment_on_missing_article Sample.toISOString null env
              Sample.store1 H) as (_ & _ & _ & H500).
  split; [exact Hs|]. split.
  - apply (Hr {[ "name" := JStr "N"; "content" := JStr "hi" ]});
      by vm_compute.
  - split.
    + apply (H400 (JObj {[ "content" := JStr "hi" ]})); [reflexivity|].
      left. by vm_compute.
    + apply H500. right. by left.
Defined.

Lemma delete_article_cascade_witness :
  let req := Sample.request Sample.admin Sample.uuid1 None in
  let env := Sample.at_time Sample.uuid3 4000 in
  let run := delete_article Sample.getUser req env Sample.store2 in
  length (kv.getByPrefix (comment_prefix Sample.uuid1) Sample.store2) = 1%nat
  ∧ response_of run = Some success
  ∧ kv.get (article_key Sample.uuid1) (store_of run) = None
  ∧ calls_of run
    = [KvGet (article_key Sample.uuid1); KvDel (article_key Sample.uuid1);
       KvGetByPrefix (comment_prefix Sample.uuid1);
       KvMdel [comment_key Sample.uuid1 Sample.uuid2]].
Proof.
  intros req env run. split; [by vm_compute|].
  assert (Hauth : truthy (verifyAuth Sample.getUser req) = true)
    by reflexivity.
  assert (Hget : kv.get (article_key (req_param req "id")) Sample.store2
                 = Some (default ∅ (kv.get (article_key Sample.uuid1)
                                      Sample.store2)))
    by (apply get_present; by vm_compute).
  destruct (delete_article_cascade Sample.getTime Sample.getUser req env
              Sample.store2 _ Hauth Hget) as (Hr & Hg & _ & _ & Hc).
  split; [exact Hr|]. split; [exact Hg|]. exact Hc.
Defined.

Lemma articles_listed_newest_first_witness :
  let s := rev Sample.store3 in
  let req := Sample.request None "" None in
  let env := Sample.at_time Sample.uuid2 6000 in
  reachable Sample.toISOString Sample.getTime Sample.getUser Sample.store3
  ∧ Permutation Sample.store3 s
  ∧ ∃ listed,
      get_articles Sample.getTime req env s
      = (Done (json {[ "articles" := JArr (JObj <$> listed) ]} 200), s,
         [KvGetByPrefix "article:"])
      ∧ Permutation listed (map snd (kv.getByPrefix "article:" s))
      ∧ StronglySorted (not_earlier Sample.getTime "createdAt") listed
      ∧ ∀ keyA A keyB B,
          In (keyA, A) s → String.prefix "article:" keyA = true →
          In (keyB, B) s → String.prefix "article:" keyB = true →
          later Sample.getTime B A "createdAt" →
          appears_before B A listed.
Proof.
  intros s req env.
  split; [apply sample_store3_reachable|].
  split; [apply Permutation_rev|].
  apply (articles_listed_newest_first Sample.toISOString Sample.getTime
           Sample.getUser sample_getTime_toISOString Sample.store3 s req env).
  - apply sample_store3_reachable.
  - apply Permutation_rev.
Defined.

Lemma sample_store4_reachable :
  reachable Sample.toISOString Sample.getTime Sample.getUser Demo.store4.
Proof.
  apply (reachable_step _ _ _ Sample.store3 PostComments).
  - apply sample_store3_reachable.
  - apply sample_env_valid; [reflexivity|]. unfold valid_time. lia.
Qed.

Lemma comments_listed_oldest_first_witness :
  let s := Demo.store4 in
  let req := Sample.request None Sample.uuid1 None in
  let env := Sample.at_time Sample.uuid2 6000 in
  let articleId := req_param req "articleId" in
  let scanned := map snd (kv.getByPrefix (comment_prefix articleId) s) in
  let older := default ∅ (kv.get (comment_key Sample.uuid1 Demo.uuid4) s) in
  let newer := default ∅ (kv.get (comment_key Sample.uuid1 Sample.uuid2) s) in
  reachable Sample.toISOString Sample.getTime Sample.getUser Demo.store4
  ∧ Permutation Demo.store4 s
  ∧ Demo.stamps scanned = [Some 2000; Some 1500]
  ∧ Demo.stamps (js_sort (oldest_first Sample.getTime) scanned)
    = [Some 1500; Some 2000]
  ∧ ∃ listed,
      get_comments Sample.getTime req env s
      = (Done (json {[ "comments" := JArr (JObj <$> listed) ]} 200), s,
         [KvGetByPrefix (comment_prefix articleId)])
      ∧ Permutation listed scanned
      ∧ StronglySorted (λ a b, not_earlier Sample.getTime "createdAt" b a)
          listed
      ∧ appears_before older newer listed.
Proof.
  intros s req env articleId scanned older newer.
  split; [apply sample_store4_reachable|].
  split; [apply Permutation_refl|].
  split; [by vm_compute|]. split; [by vm_compute|].
  destruct (comments_listed_oldest_first Sample.toISOString Sample.getTime
              Sample.getUser sample_getTime_toISOString Demo.store4 s req env
              sample_store4_reachable (Permutation_refl _))
    as (listed & Hrun & Hperm & Hsorted & Hpairs).
  exists listed. split; [exact Hrun|]. split; [exact Hperm|].
  split; [exact Hsorted|].
  apply (Hpairs (comment_key Sample.uuid1 Demo.uuid4) older
           (comment_key Sample.uuid1 Sample.uuid2) newer).
  - apply kv_facts.get_Some_In, get_present. by vm_compute.
  - by vm_compute.
  - apply kv_facts.get_Some_In, get_present. by vm_compute.
  - by vm_compute.
  - exists 2000, 1500. split; [by vm_compute|]. split; [by vm_compute|]. lia.
Defined.

Lemma comment_record_matches_key_witness :
  let s := rev Sample.store3 in
  reachable Sample.toISOString Sample.getTime Sample.getUser Sample.store3
  ∧ Permutation Sample.store3 s
  ∧ (∀ req env,
       let articleId := req_param req "articleId" in
       let commentId := env_uuid env in
       store_of (post_comments Sample.toISOString req env s) = s
       ∨ ∃ comment,
           store_of (post_comments Sample.toISOString req env s)
           = kv.set (comment_key articleId commentId) comment s
           ∧ prop comment "articleId" = JStr articleId
           ∧ prop comment "id" = JStr commentId)
  ∧ (∀ key c, In (key, c) s → String.prefix "comment:" key = true →
       ∃ articleId commentId,
         key = comment_key articleId commentId
         ∧ no_colon articleId = true ∧ no_colon commentId = true
         ∧ prop c "articleId" = JStr articleId
         ∧ prop c "id" = JStr commentId)
  ∧ (∀ X key c, In (key, c) (kv.getByPrefix (comment_prefix X) s) →
       prop c "articleId" = JStr X).
Proof.
  intros s.
  split; [apply sample_store3_reachable|].
  split; [apply Permutation_rev|].
  apply (comment_record_matches_key Sample.toISOString Sample.getTime
           Sample.getUser Sample.store3 s).
  - apply sample_store3_reachable.
  - apply Permutation_rev.
Defined.

(** * Further properties *)

(** ** Rows other than the one written *)

Lemma find_filter_keep (p q : string * obj → bool) s :
  (∀ row, p row = true → q row = true) →
  List.find p (List.filter q s) = List.find p s.
Proof.
  intros H. induction s as [|row s IH]; simpl; [done|].
  destruct (p row) eqn:Hp.
  - rewrite (H _ Hp). simpl. by rewrite Hp.
  - destruct (q row); simpl; [by rewrite Hp|done].
Qed.

Lemma get_del_other k k' s : k' ≠ k → kv.get k' (kv.del k s) = kv.get k' s.
Proof.
  intros Hne. unfold kv.get, kv.del. rewrite find_filter_keep; [done|].
  intros row. unfold kv.has_key. intros ->%String.eqb_eq.
  by apply negb_true_iff, String.eqb_neq.
Qed.

Lemma find_snoc_other (p : string * obj → bool) s row :
  p row = false → List.find p (s ++ [row]) = List.find p s.
Proof.
  intros Hp. induction s as [|r s IH]; simpl; [by rewrite Hp|].
  by destruct (p r).
Qed.

Lemma get_set_other k k' v s : k' ≠ k → kv.get k' (kv.set k v s) = kv.get k' s.
Proof.
  intros Hne. unfold kv.set, kv.get at 1. rewrite find_snoc_other.
  - by apply (get_del_other k k' s).
  - unfold kv.has_key. simpl. apply String.eqb_neq. congruence.
Qed.

Lemma get_mdel_other ks k' s :
  ¬ In k' ks → kv.get k' (kv.mdel ks s) = kv.get k' s.
Proof.
  intros Hk. unfold kv.get, kv.mdel. rewrite find_filter_keep; [done|].
  intros row. unfold kv.has_key. intros ->%String.eqb_eq.
  apply negb_true_iff. destruct (existsb _ ks) eqn:E; [|done].
  apply existsb_exists in E as (k & Hin & ->%String.eqb_eq). done.
Qed.

Lemma get_is_Some_In k s : is_Some (kv.get k s) ↔ ∃ v, In (k, v) s.
Proof.
  split.
  - intros [v Hv]. exists v. by apply kv_facts.get_Some_In.
  - intros [v Hin]. destruct (kv.get k s) eqn:E; [done|].
    by apply (kv_facts.get_None_not_In _ _ E) in Hin.
Qed.

Lemma substring_all n s :
  (String.length s ≤ n)%nat → substring 0 n s = s.
Proof.
  revert n. induction s as [|c s IH]; intros [|n]; simpl; try done; try lia.
  intros H. f_equal. apply IH. lia.
Qed.

(** ** The article handlers *)

Section MoreServerFacts.

Variable toISOString : Z → string.
Variable getTime : jsval → option Z.
Variable getUser : string → AuthResult.

(** The article that a create request with body [b] stores when it is
    given the excerpt [e]. *)
Lemma post_articles_run req env s b e :
  truthy (verifyAuth getUser req) = true →
  req_json req = Some (JObj b) →
  truthy (prop b "title") = true →
  truthy (prop b "content") = true →
  (if truthy (prop b "excerpt") then e = prop b "excerpt"
   else ∃ c, prop b "content" = JStr c
             ∧ e = JStr (substring 0 150 c +:+ "...")) →
  let article : obj := list_to_map [
    ("id", JStr (env_uuid env)); ("title", prop b "title");
    ("content", prop b "content"); ("excerpt", e);
    ("imageUrl", js_or (prop b "imageUrl") JNull);
    ("videoUrl", js_or (prop b "videoUrl") JNull);
    ("audioUrl", js_or (prop b "audioUrl") JNull);
    ("authorId", verifyAuth getUser req);
    ("createdAt", JStr (toISOString (env_now env)));
    ("updatedAt", JStr (toISOString (env_now2 env))) ] in
  post_articles toISOString getUser req env s
  = (Done (json (<[ "article" := JObj article ]>
                   {[ "success" := JBool true ]}) 200),
     kv.set (article_key (env_uuid env)) article s,
     [KvSet (article_key (env_uuid env)) article]).
Proof.
  intros Hauth Hb Ht Hc He. unfold post_articles. rewrite Hauth. run.
  rewrite Hb. simpl. rewrite Ht, Hc. simpl.
  destruct (truthy (prop b "excerpt")).
  - subst e. reflexivity.
  - destruct He as (c & Hcs & ->). rewrite Hcs. reflexivity.
Qed.

Lemma get_article_run req env s :
  get_article req env s
  = (Done match kv.get (article_key (req_param req "id")) s with
          | Some article => json {[ "article" := JObj article ]} 200
          | None => article_not_found
          end,
     s, [KvGet (article_key (req_param req "id"))]).
Proof. unfold get_article. run. by destruct (kv.get _ s). Qed.

Lemma response_of_Done r s calls : response_of (Done r, s, calls) = Some r.
Proof. reflexivity. Qed.

Lemma store_of_triple {A} (r : result A) s calls :
  store_of (r, s, calls) = s.
Proof. reflexivity. Qed.

Lemma calls_of_triple {A} (r : result A) s calls :
  calls_of (r, s, calls) = calls.
Proof. reflexivity. Qed.

Lemma JStr_inj s1 s2 : JStr s1 = JStr s2 → s1 = s2.
Proof.
  intros H.
  by apply (f_equal (λ v, match v with JStr s => s | _ => EmptyString end))
    in H.
Qed.

Lemma success_article_inj (a a' : obj) :
  json (<[ "article" := JObj a ]> {[ "success" := JBool true ]}) 200
  = json (<[ "article" := JObj a' ]> {[ "success" := JBool true ]}) 200 →
  a = a'.
Proof.
  intros H.
  apply (f_equal (λ r, match body r with
                       | JObj o => o !! "article"
                       | _ => None
                       end)) in H.
  unfold json in H. cbn [body] in H. rewrite !lookup_insert_eq in H.
  by apply (f_equal (λ v, match v with Some (JObj o) => o | _ => ∅ end)) in H.
Qed.

(** Create-article either answers 401, 400 or 500 and leaves the store
    alone, or stores one article and answers 200 with it. *)
Lemma post_articles_cases req env s :
  (∃ r, post_articles toISOString getUser req env s = (Done r, s, [])
        ∧ In (status r) [400; 401; 500])
  ∨ ∃ article,
      post_articles toISOString getUser req env s
      = (Done (json (<[ "article" := JObj article ]>
                       {[ "success" := JBool true ]}) 200),
         kv.set (article_key (env_uuid env)) article s,
         [KvSet (article_key (env_uuid env)) article])
      ∧ truthy (verifyAuth getUser req) = true
      ∧ prop article "id" = JStr (env_uuid env)
      ∧ prop article "authorId" = verifyAuth getUser req
      ∧ prop article "createdAt" = JStr (toISOString (env_now env))
      ∧ prop article "updatedAt" = JStr (toISOString (env_now2 env)).
Proof.
  unfold post_articles.
  destruct (truthy (verifyAuth getUser req)) eqn:Hauth; simpl.
  2: { left. eexists. split; [reflexivity|]. simpl. tauto. }
  run. destruct (req_json req) as [v|].
  2: { left. eexists. split; [reflexivity|]. simpl. tauto. }
  destruct v; simpl;
    try (left; eexists; split; [reflexivity|]; simpl; tauto).
  destruct (negb _ || negb _); simpl.
  { left. eexists. split; [reflexivity|]. simpl. tauto. }
  destruct (truthy (prop o "excerpt")); simpl.
  - right. eexists. split; [reflexivity|]. repeat split; prop_eq.
  - destruct (prop o "content"); simpl;
      try (left; eexists; split; [reflexivity|]; simpl; tauto).
    right. eexists. split; [reflexivity|]. repeat split; prop_eq.
Qed.

(** X1: an article that create-article has answered with can be fetched:
    get-article for the id in the answer returns 200 with the very
    article of the answer, and changes nothing. *)
Theorem created_article_round_trip req env s article req' env' :
  response_of (post_articles toISOString getUser req env s)
  = Some (json (<[ "article" := JObj article ]>
                  {[ "success" := JBool true ]}) 200) →
  prop article "id" = JStr (req_param req' "id") →
  let s' := store_of (post_articles toISOString getUser req env s) in
  get_article req' env' s'
  = (Done (json {[ "article" := JObj article ]} 200), s',
     [KvGet (article_key (req_param req' "id"))]).
Proof.
  intros Hr Hid s'. rewrite get_article_run. unfold s'.
  destruct (post_articles_cases req env s)
    as [(r & Hrun & Hst)|(a & Hrun & _ & Hid' & _)];
    rewrite Hrun in *; rewrite response_of_Done in Hr;
    apply (inj Some) in Hr.
  - subst r. simpl in Hst. lia.
  - apply success_article_inj in Hr as ->. rewrite store_of_triple.
    rewrite Hid' in Hid. apply JStr_inj in Hid as <-.
    by rewrite kv_facts.get_set_same.
Qed.

(** X2: a create-article request by a resolved caller whose body lacks a
    title or a content (absent, [null], empty, [false] or zero), or is
    JSON but not an object, is answered 400 before any call to the store,
    which is left as it was. *)
Theorem create_article_validation req env s v :
  truthy (verifyAuth getUser req) = true →
  req_json req = Some v →
  match v with
  | JObj b => truthy (prop b "title") = false
              ∨ truthy (prop b "content") = false
  | JUndefined | JNull => False
  | _ => True
  end →
  post_articles toISOString getUser req env s
  = (Done (json {[ "error" := JStr "Title and content are required" ]} 400),
     s, []).
Proof.
  intros Hauth Hb Hv. unfold post_articles. rewrite Hauth. run. rewrite Hb.
  destruct v; simpl; try done.
  by destruct Hv as [-> | ->]; simpl; [|rewrite orb_true_r].
Qed.

(** X3: a create-article request by a resolved caller is answered 500,
    with the store left as it was and never called, when its body is not
    JSON or is [null], and also when it has a title, a content that is
    not a string (a number, [true], an array, an object) and no excerpt:
    the excerpt cannot be cut from such a content. *)
Theorem create_article_throws req env s :
  truthy (verifyAuth getUser req) = true →
  req_json req = None ∨ req_json req = Some JNull
  ∨ (∃ b, req_json req = Some (JObj b)
          ∧ truthy (prop b "title") = true
          ∧ truthy (prop b "content") = true
          ∧ (∀ c, prop b "content" ≠ JStr c)
          ∧ truthy (prop b "excerpt") = false) →
  post_articles toISOString getUser req env s
  = (Done (json {[ "error" := JStr "Failed to create article" ]} 500),
     s, []).
Proof.
  intros Hauth H. unfold post_articles. rewrite Hauth. run.
  destruct H as [-> | [-> | (b & -> & Ht & Hc & Hns & He)]]; try done.
  simpl. rewrite Ht, Hc, He. simpl.
  destruct (prop b "content") eqn:E; simpl; try done.
  by destruct (Hns s0).
Qed.

(** X4: when a resolved caller creates an article with no excerpt and a
    content shorter than 150 characters, the stored excerpt is the whole
    content followed by three dots. *)
Theorem created_article_short_excerpt req env s b content :
  truthy (verifyAuth getUser req) = true →
  req_json req = Some (JObj b) →
  truthy (prop b "title") = true →
  prop b "content" = JStr content →
  (0 < String.length content < 150)%nat →
  truthy (prop b "excerpt") = false →
  ∃ article,
    kv.get (article_key (env_uuid env))
      (store_of (post_articles toISOString getUser req env s))
    = Some article
    ∧ prop article "excerpt" = JStr (content +:+ "...").
Proof.
  intros Hauth Hb Ht Hc Hlen He.
  assert (Hne : truthy (prop b "content") = true).
  { rewrite Hc. simpl. apply nonempty_length. lia. }
  rewrite (post_articles_run req env s b (JStr (content +:+ "..."))
             Hauth Hb Ht Hne).
  - rewrite store_of_triple. eexists.
    split; [apply kv_facts.get_set_same|]. prop_eq.
  - rewrite He. exists content. split; [done|].
    rewrite substring_all; [done|lia].
Qed.

(** X5: when a resolved caller creates an article and supplies a
    non-empty excerpt, that excerpt is stored as it is, whatever its
    length; each of the three media URLs is stored as supplied when it is
    non-empty and as [null] when it is absent, [null] or empty; the
    author of the stored article is the caller's identity and its id is
    the fresh UUID. *)
Theorem created_article_supplied_fields req env s b :
  truthy (verifyAuth getUser req) = true →
  req_json req = Some (JObj b) →
  truthy (prop b "title") = true →
  truthy (prop b "content") = true →
  truthy (prop b "excerpt") = true →
  ∃ article,
    kv.get (article_key (env_uuid env))
      (store_of (post_articles toISOString getUser req env s))
    = Some article
    ∧ prop article "excerpt" = prop b "excerpt"
    ∧ prop article "title" = prop b "title"
    ∧ prop article "content" = prop b "content"
    ∧ prop article "id" = JStr (env_uuid env)
    ∧ prop article "authorId" = verifyAuth getUser req
    ∧ ∀ f, In f ["imageUrl"; "videoUrl"; "audioUrl"] →
           prop article f
           = if truthy (prop b f) then prop b f else JNull.
Proof.
  intros Hauth Hb Ht Hc He.
  rewrite (post_articles_run req env s b (prop b "excerpt")
             Hauth Hb Ht Hc) by (by rewrite He).
  rewrite store_of_triple. eexists.
  split; [apply kv_facts.get_set_same|].
  repeat (split; [prop_eq|]).
  intros f Hf. simpl in Hf.
  repeat (destruct Hf as [<-|Hf]; [prop_eq|]). done.
Qed.

(** Update-article either answers 401, 404 or 500 and leaves the store
    alone, or overwrites the article and answers 200. *)
Lemma put_article_cases req env s :
  let key := article_key (req_param req "id") in
  (∃ r calls, put_article toISOString getUser req env s = (Done r, s, calls)
        ∧ In (status r) [401; 404; 500])
  ∨ ∃ existing v,
      truthy (verifyAuth getUser req) = true
      ∧ kv.get key s = Some existing
      ∧ req_json req = Some v
      ∧ nullish v = false
      ∧ let updated :=
          updatedArticle toISOString existing (member v "title")
            (member v "content") (member v "excerpt") (member v "imageUrl")
            (member v "videoUrl") (member v "audioUrl") (env_now env) in
        put_article toISOString getUser req env s
        = (Done (json (<[ "article" := JObj updated ]>
                         {[ "success" := JBool true ]}) 200),
           kv.set key updated s, [KvGet key; KvSet key updated]).
Proof.
  intros key. unfold put_article.
  destruct (truthy (verifyAuth getUser req)) eqn:Hauth; simpl.
  2: { left. eexists _, _. split; [reflexivity|]. simpl. tauto. }
  run. fold key. destruct (kv.get key s) as [existing|] eqn:Hget.
  2: { left. eexists _, _. split; [reflexivity|]. simpl. tauto. }
  destruct (req_json req) as [v|] eqn:Hb.
  2: { left. eexists _, _. split; [reflexivity|]. simpl. tauto. }
  destruct v; simpl;
    try (left; eexists _, _; split; [reflexivity|]; simpl; tauto);
    right; eexists existing, _; repeat (split; [done|]); reflexivity.
Qed.

Lemma updatedArticle_other existing t c e i v a now f :
  ¬ In f updatable →
  prop (updatedArticle toISOString existing t c e i v a now) f
  = prop existing f.
Proof.
  clear getTime getUser.
  intros Hf. unfold updatedArticle. rewrite !prop_insert.
  assert (H : ∀ k, In k updatable → String.eqb k f = false).
  { intros k Hk. apply String.eqb_neq. by intros ->. }
  rewrite !H by (unfold updatable; simpl; tauto). done.
Qed.

(** X6: an update by a resolved caller for an id with no article is
    answered 404 after one lookup, the store left as it was, whatever the
    body is: the body is not even read. *)
Theorem update_missing_article req env s :
  truthy (verifyAuth getUser req) = true →
  kv.get (article_key (req_param req "id")) s = None →
  put_article toISOString getUser req env s
  = (Done article_not_found, s, [KvGet (article_key (req_param req "id"))]).
Proof.
  intros Hauth Hget. unfold put_article. rewrite Hauth. run.
  by rewrite Hget.
Qed.

(** X7: whatever an update-article request carries, after it the article
    under the key still exists and every field of it other than title,
    content, excerpt, the three media URLs and updatedAt is as before (so
    its id, authorId and createdAt cannot be changed by a caller), and
    every other key of the store maps to what it did. *)
Theorem update_keeps_the_rest req env s existing :
  let key := article_key (req_param req "id") in
  let post := store_of (put_article toISOString getUser req env s) in
  kv.get key s = Some existing →
  (∃ after, kv.get key post = Some after
            ∧ ∀ f, ¬ In f updatable → prop after f = prop existing f)
  ∧ ∀ k, k ≠ key → kv.get k post = kv.get k s.
Proof.
  intros key post Hget. unfold post.
  destruct (put_article_cases req env s)
    as [(r & calls & -> & _)|(e & v & _ & Hget' & _ & _ & ->)];
    rewrite store_of_triple.
  - split; [by exists existing|done].
  - fold key in Hget'. rewrite Hget in Hget'. apply (inj Some) in Hget' as <-.
    split.
    + eexists. split; [apply kv_facts.get_set_same|].
      intros f Hf. by apply updatedArticle_other.
    + intros k Hk. by apply get_set_other.
Qed.

(** X8: in an update of an existing article by a resolved caller, each of
    title, content and excerpt keeps its stored value when the body has
    the field absent or [null], and takes the body's value otherwise, the
    empty string included. *)
Theorem update_text_field req env s existing b f :
  In f ["title"; "content"; "excerpt"] →
  truthy (verifyAuth getUser req) = true →
  kv.get (article_key (req_param req "id")) s = Some existing →
  req_json req = Some (JObj b) →
  ∃ updated,
    kv.get (article_key (req_param req "id"))
      (store_of (put_article toISOString getUser req env s)) = Some updated
    ∧ prop updated f
      = if nullish (prop b f) then prop existing f else prop b f.
Proof.
  intros Hf Hauth Hget Hb.
  rewrite (put_article_run toISOString getUser _ _ _ _ _ Hauth Hget Hb).
  rewrite store_of_triple. eexists.
  split; [apply kv_facts.get_set_same|].
  unfold updatedArticle, js_coalesce. simpl in Hf.
  repeat (destruct Hf as [<-|Hf]; [prop_eq|]). done.
Qed.

(** X9: an update of an existing article by a resolved caller whose body
    names none of the six fields (an empty object, or an array, a string,
    a number or a boolean) is answered 200 and changes nothing of the
    article but its updatedAt, which becomes the clock reading. *)
Theorem update_without_fields req env s existing v :
  truthy (verifyAuth getUser req) = true →
  kv.get (article_key (req_param req "id")) s = Some existing →
  req_json req = Some v →
  match v with
  | JObj b => ∀ f, In f updatable → b !! f = None
  | JUndefined | JNull => False
  | _ => True
  end →
  ∃ updated,
    status <$> response_of (put_article toISOString getUser req env s)
    = Some 200
    ∧ kv.get (article_key (req_param req "id"))
        (store_of (put_article toISOString getUser req env s)) = Some updated
    ∧ prop updated "updatedAt" = JStr (toISOString (env_now env))
    ∧ ∀ f, f ≠ "updatedAt" → prop updated f = prop existing f.
Proof.
  clear getTime. intros Hauth Hget Hb Hv.
  assert (Hm : ∀ f, In f updatable → member v f = JUndefined).
  { intros f Hf. destruct v; simpl; try done.
    apply prop_absent. by apply Hv. }
  destruct (put_article_cases req env s)
    as [(r & calls & Hrun & Hst)|(e & v' & _ & Hget' & Hb' & _ & Hrun)].
  { revert Hrun. unfold put_article. rewrite Hauth. run. rewrite Hget, Hb.
    destruct v; simpl; try done;
      intros H; apply (f_equal response_of) in H;
      rewrite !response_of_Done in H; apply (inj Some) in H; subst r;
      simpl in Hst; lia. }
  rewrite Hget in Hget'. apply (inj Some) in Hget' as <-.
  rewrite Hb in Hb'. apply (inj Some) in Hb' as <-.
  rewrite Hrun, response_of_Done, store_of_triple.
  rewrite !Hm by (unfold updatable; simpl; tauto).
  eexists. split; [done|]. split; [apply kv_facts.get_set_same|].
  unfold updatedArticle, js_coalesce. simpl. split; [prop_eq|].
  intros f Hf. rewrite !prop_insert.
  destruct (String.eqb_spec "updatedAt" f) as [<-|_]; [done|].
  destruct (String.eqb_spec "audioUrl" f) as [<-|_]; [done|].
  destruct (String.eqb_spec "videoUrl" f) as [<-|_]; [done|].
  destruct (String.eqb_spec "imageUrl" f) as [<-|_]; [done|].
  destruct (String.eqb_spec "excerpt" f) as [<-|_]; [done|].
  destruct (String.eqb_spec "content" f) as [<-|_]; [done|].
  by destruct (String.eqb_spec "title" f) as [<-|_].
Qed.

(** X10: an update of an existing article by a resolved caller whose body
    is not JSON, or is [null], is answered 500 and stores nothing. *)
Theorem update_bad_body req env s existing :
  truthy (verifyAuth getUser req) = true →
  kv.get (article_key (req_param req "id")) s = Some existing →
  req_json req = None ∨ req_json req = Some JNull →
  put_article toISOString getUser req env s
  = (Done (json {[ "error" := JStr "Failed to update article" ]} 500), s,
     [KvGet (article_key (req_param req "id"))]).
Proof.
  intros Hauth Hget H. unfold put_article. rewrite Hauth. run. rewrite Hget.
  by destruct H as [-> | ->].
Qed.

(** ** Deleting *)

Lemma delete_article_run req env s article :
  truthy (verifyAuth getUser req) = true →
  kv.get (article_key (req_param req "id")) s = Some article →
  let X := req_param req "id" in
  let commentKeys := map fst (kv.getByPrefix (comment_prefix X) s) in
  delete_article getUser req env s
  = (Done success, kv.mdel commentKeys (kv.del (article_key X) s),
     [KvGet (article_key X); KvDel (article_key X);
      KvGetByPrefix (comment_prefix X)]
     ++ match commentKeys with [] => [] | _ => [KvMdel commentKeys] end).
Proof.
  intros Hauth Hget X. fold X in Hget. intros commentKeys.
  unfold delete_article. rewrite Hauth. run. fold X. rewrite Hget.
  rewrite kv_facts.getByPrefix_del by apply comment_prefix_not_article.
  fold commentKeys. destruct commentKeys; simpl; [|done].
  by rewrite mdel_nil.
Qed.

Lemma delete_article_cases req env s :
  let X := req_param req "id" in
  (∃ r calls, delete_article getUser req env s = (Done r, s, calls)
              ∧ In (status r) [401; 404])
  ∨ ∃ article calls,
      truthy (verifyAuth getUser req) = true
      ∧ kv.get (article_key X) s = Some article
      ∧ delete_article getUser req env s
        = (Done success,
           kv.mdel (map fst (kv.getByPrefix (comment_prefix X) s))
             (kv.del (article_key X) s), calls).
Proof.
  intros X.
  destruct (truthy (verifyAuth getUser req)) eqn:Hauth.
  2: { left. unfold delete_article. rewrite Hauth. simpl.
       eexists _, _. split; [reflexivity|]. simpl. tauto. }
  destruct (kv.get (article_key X) s) as [article|] eqn:Hget.
  - right. exists article. eexists. split; [done|]. split; [done|].
    by apply (delete_article_run req env s article).
  - left. unfold delete_article. rewrite Hauth. run. fold X. rewrite Hget.
    eexists _, _. split; [reflexivity|]. simpl. tauto.
Qed.

Lemma scanned_key_prefix p s k :
  In k (map fst (kv.getByPrefix p s)) → String.prefix p k = true.
Proof.
  intros (row & <- & [_ H]%kv_facts.In_getByPrefix)%in_map_iff. done.
Qed.

(** What a deletion of article [X] leaves of a key outside its reach. *)
Lemma delete_article_other_key X s k :
  k ≠ article_key X →
  String.prefix (comment_prefix X) k = false →
  kv.get k (kv.mdel (map fst (kv.getByPrefix (comment_prefix X) s))
              (kv.del (article_key X) s))
  = kv.get k s.
Proof.
  intros Hk Hp. rewrite get_mdel_other.
  - by apply get_del_other.
  - intros Hin%scanned_key_prefix. congruence.
Qed.

Lemma other_comment_prefix X Y c :
  no_colon Y = true → no_colon c = true → Y ≠ X →
  String.prefix (comment_prefix X) (comment_key Y c) = false.
Proof.
  intros HY Hc Hne.
  destruct (String.prefix _ _) eqn:E; [|done].
  by apply comment_prefix_segment in E.
Qed.

Lemma filter_twice {A} (p q : A → bool) l :
  List.filter q (List.filter p l) = List.filter (λ x, p x && q x) l.
Proof.
  induction l as [|x l IH]; simpl; [done|].
  destruct (p x); simpl; [|done]. destruct (q x); by rewrite IH.
Qed.

Lemma cascade_filter X s :
  kv.mdel (map fst (kv.getByPrefix (comment_prefix X) s))
    (kv.del (article_key X) s)
  = List.filter
      (λ row, negb (String.eqb (fst row) (article_key X))
              && negb (String.prefix (comment_prefix X) (fst row))) s.
Proof.
  unfold kv.mdel, kv.del, kv.has_key. rewrite filter_twice.
  apply filter_ext_in. intros row Hin. f_equal. f_equal.
  destruct (String.prefix (comment_prefix X) (fst row)) eqn:Hp.
  - apply existsb_exists. exists (fst row).
    split; [|apply String.eqb_refl].
    apply in_map. by apply kv_facts.In_getByPrefix.
  - destruct (existsb _ _) eqn:E; [|done].
    apply existsb_exists in E as (k & Hk & Heq%String.eqb_eq).
    apply scanned_key_prefix in Hk. congruence.
Qed.

(** X11: a successful delete-article for X removes from the store exactly
    the rows whose key is [article:X] or starts with [comment:X:], and
    keeps the others in their order: every other article is still there,
    and so is every comment of another article. *)
Theorem delete_article_keeps_the_rest req env s article :
  truthy (verifyAuth getUser req) = true →
  kv.get (article_key (req_param req "id")) s = Some article →
  let X := req_param req "id" in
  let post := store_of (delete_article getUser req env s) in
  post = List.filter
           (λ row, negb (String.eqb (fst row) (article_key X))
                   && negb (String.prefix (comment_prefix X) (fst row))) s
  ∧ (∀ Y, Y ≠ X → kv.get (article_key Y) post = kv.get (article_key Y) s)
  ∧ (∀ Y c, no_colon Y = true → no_colon c = true → Y ≠ X →
       kv.get (comment_key Y c) post = kv.get (comment_key Y c) s).
Proof.
  intros Hauth Hget X post. unfold post.
  rewrite (delete_article_run req env s article Hauth Hget).
  rewrite store_of_triple. fold X. split; [|split].
  - apply cascade_filter.
  - intros Y HY. apply delete_article_other_key.
    + intros H%article_key_inj. done.
    + apply comment_prefix_not_article.
  - intros Y c HY Hc Hne. apply delete_article_other_key.
    + intros H. symmetry in H. by apply article_key_not_comment in H.
    + by apply other_comment_prefix.
Qed.

Lemma delete_comment_cases req env s :
  let key := comment_key (req_param req "articleId")
               (req_param req "commentId") in
  (∃ r calls, delete_comment getUser req env s = (Done r, s, calls)
              ∧ In (status r) [401; 404]
              ∧ (truthy (verifyAuth getUser req) = true →
                 kv.get key s = None ∧ status r = 404 ∧ calls = [KvGet key]))
  ∨ (truthy (verifyAuth getUser req) = true
     ∧ is_Some (kv.get key s)
     ∧ delete_comment getUser req env s
       = (Done success, kv.del key s, [KvGet key; KvDel key])).
Proof.
  intros key. unfold delete_comment.
  destruct (truthy (verifyAuth getUser req)) eqn:Hauth; simpl.
  2: { left. eexists _, _. split; [reflexivity|]. simpl. split; [tauto|].
       done. }
  run. fold key. destruct (kv.get key s) eqn:Hget.
  - right. done.
  - left. eexists _, _. split; [reflexivity|]. simpl. split; [tauto|]. done.
Qed.

(** X12: a delete-comment request by a resolved caller removes the row
    under [comment:<articleId>:<commentId>] and nothing else, answering
    200 when there was one and 404 when there was none; either way the
    key is absent afterwards and every other key maps to what it did.
    The article itself is never looked up. *)
Theorem delete_comment_removes_one req env s :
  truthy (verifyAuth getUser req) = true →
  let key := comment_key (req_param req "articleId")
               (req_param req "commentId") in
  let run := delete_comment getUser req env s in
  status <$> response_of run
  = Some (match kv.get key s with Some _ => 200 | None => 404 end)
  ∧ calls_of run = match kv.get key s with
                   | Some _ => [KvGet key; KvDel key]
                   | None => [KvGet key]
                   end
  ∧ kv.get key (store_of run) = None
  ∧ ∀ k, k ≠ key → kv.get k (store_of run) = kv.get k s.
Proof.
  intros Hauth key run. unfold run.
  destruct (delete_comment_cases req env s)
    as [(r & calls & -> & _ & H)|(_ & [c Hc] & ->)].
  - destruct (H Hauth) as (Hget & Hst & ->). fold key in Hget. rewrite Hget.
    rewrite response_of_Done, store_of_triple, calls_of_triple. simpl.
    by rewrite Hst.
  - fold key in Hc. rewrite Hc, response_of_Done, store_of_triple,
      calls_of_triple.
    split; [done|]. split; [done|].
    split; [apply kv_facts.get_del_same|].
    intros k Hk. by apply get_del_other.
Qed.

(** ** Comments *)

Lemma post_comments_run req env s b article :
  req_json req = Some (JObj b) →
  truthy (prop b "name") = true →
  truthy (prop b "content") = true →
  kv.get (article_key (req_param req "articleId")) s = Some article →
  let articleId := req_param req "articleId" in
  let comment : obj := list_to_map [
    ("id", JStr (env_uuid env)); ("articleId", JStr articleId);
    ("name", prop b "name"); ("content", prop b "content");
    ("createdAt", JStr (toISOString (env_now env))) ] in
  post_comments toISOString req env s
  = (Done (json (<[ "comment" := JObj comment ]>
                   {[ "success" := JBool true ]}) 200),
     kv.set (comment_key articleId (env_uuid env)) comment s,
     [KvGet (article_key articleId);
      KvSet (comment_key articleId (env_uuid env)) comment]).
Proof.
  intros Hb Hn Hc Hget. unfold post_comments. run. rewrite Hb. simpl.
  rewrite Hn, Hc. simpl. by rewrite Hget.
Qed.

(** Create-comment answers 200 only when it has found the article. *)
Lemma post_comments_cases req env s :
  (∃ r calls, post_comments toISOString req env s = (Done r, s, calls)
              ∧ In (status r) [400; 404; 500])
  ∨ ∃ b article,
      req_json req = Some (JObj b)
      ∧ truthy (prop b "name") = true
      ∧ truthy (prop b "content") = true
      ∧ kv.get (article_key (req_param req "articleId")) s = Some article.
Proof.
  unfold post_comments. run.
  destruct (req_json req) as [v|].
  2: { left. eexists _, _. split; [reflexivity|]. simpl. tauto. }
  destruct v; simpl;
    try (left; eexists _, _; split; [reflexivity|]; simpl; tauto).
  destruct (truthy (prop o "name")) eqn:Hn; simpl.
  2: { left. eexists _, _. split; [reflexivity|]. simpl. tauto. }
  destruct (truthy (prop o "content")) eqn:Hc; simpl.
  2: { left. eexists _, _. split; [reflexivity|]. simpl. tauto. }
  destruct (kv.get _ s) as [article|] eqn:Hget.
  - right. by exists o, article.
  - left. eexists _, _. split; [reflexivity|]. simpl. tauto.
Qed.

(** X13: a create-comment request with a non-empty name and content for
    an existing article, from anyone, is answered 200; it adds one row,
    under [comment:<articleId>:<uuid>], holding the name and content as
    sent, and leaves every other key as it was; listing the comments of
    that article afterwards returns a list that has the new comment. *)
Theorem created_comment_is_listed req env s b article req' env' :
  req_json req = Some (JObj b) →
  truthy (prop b "name") = true →
  truthy (prop b "content") = true →
  kv.get (article_key (req_param req "articleId")) s = Some article →
  req_param req' "articleId" = req_param req "articleId" →
  let key := comment_key (req_param req "articleId") (env_uuid env) in
  let run := post_comments toISOString req env s in
  ∃ comment listed,
    response_of run
    = Some (json (<[ "comment" := JObj comment ]>
                    {[ "success" := JBool true ]}) 200)
    ∧ store_of run = kv.set key comment s
    ∧ prop comment "name" = prop b "name"
    ∧ prop comment "content" = prop b "content"
    ∧ (∀ k, k ≠ key → kv.get k (store_of run) = kv.get k s)
    ∧ response_of (get_comments getTime req' env' (store_of run))
      = Some (json {[ "comments" := JArr (JObj <$> listed) ]} 200)
    ∧ In comment listed.
Proof.
  intros Hb Hn Hc Hget Hp key run. unfold run.
  rewrite (post_comments_run req env s b article Hb Hn Hc Hget).
  rewrite response_of_Done, store_of_triple. fold key.
  eexists _, _. split; [reflexivity|]. split; [reflexivity|].
  split; [prop_eq|]. split; [prop_eq|].
  split; [intros k Hk; by apply get_set_other|].
  rewrite (get_comments_run getTime). rewrite response_of_Done.
  split; [reflexivity|].
  apply js_sort_In, in_map_iff. eexists (key, _). split; [reflexivity|].
  apply kv_facts.In_getByPrefix. split.
  - apply kv_facts.In_set. by right.
  - rewrite Hp. apply comment_prefix_own_key.
Qed.

(** X14: once delete-article has answered 200 for X, the article is gone
    for every handler: get-article, update-article and a second
    delete-article for X are answered 404, create-comment for X is never
    answered 200, none of them changes the store, and list-comments for X
    returns the empty list. *)
Theorem deleted_article_is_gone req env s article req' env' :
  truthy (verifyAuth getUser req) = true →
  kv.get (article_key (req_param req "id")) s = Some article →
  req_param req' "id" = req_param req "id" →
  req_param req' "articleId" = req_param req "id" →
  let post := store_of (delete_article getUser req env s) in
  status <$> response_of (get_article req' env' post) = Some 404
  ∧ (truthy (verifyAuth getUser req') = true →
     status <$> response_of (put_article toISOString getUser req' env' post)
     = Some 404
     ∧ status <$> response_of (delete_article getUser req' env' post)
       = Some 404)
  ∧ status <$> response_of (post_comments toISOString req' env' post)
    ≠ Some 200
  ∧ store_of (put_article toISOString getUser req' env' post) = post
  ∧ store_of (delete_article getUser req' env' post) = post
  ∧ store_of (post_comments toISOString req' env' post) = post
  ∧ response_of (get_comments getTime req' env' post)
    = Some (json {[ "comments" := JArr [] ]} 200).
Proof.
  intros Hauth Hget Hid Haid post.
  set (X := req_param req "id") in *.
  assert (Hpost : post = kv.mdel (map fst (kv.getByPrefix (comment_prefix X) s))
                           (kv.del (article_key X) s)).
  { unfold post. by rewrite (delete_article_run req env s article Hauth Hget). }
  assert (Hrows : ∀ row, In row post →
            fst row ≠ article_key X
            ∧ String.prefix (comment_prefix X) (fst row) = false).
  { intros row. rewrite Hpost, cascade_filter, filter_In.
    intros [_ [H1 H2]%andb_prop]. split.
    - by apply String.eqb_neq, negb_true_iff.
    - by apply negb_true_iff. }
  assert (Hgone : kv.get (article_key X) post = None).
  { apply get_None_iff. intros row Hin. by apply Hrows. }
  clearbody post.
  split; [|split; [|split; [|split; [|split; [|split]]]]].
  - rewrite get_article_run, Hid, Hgone. done.
  - intros Hauth'. split.
    + rewrite update_missing_article; [done|done|]. by rewrite Hid.
    + unfold delete_article. rewrite Hauth'. run. rewrite Hid. fold X.
      by rewrite Hgone.
  - destruct (post_comments_cases req' env' post)
      as [(r & calls & -> & Hst)|(b & a & _ & _ & _ & Ha)].
    + rewrite response_of_Done. simpl. simpl in Hst. intros [= H]. lia.
    + rewrite Haid in Ha. fold X in Ha. congruence.
  - destruct (put_article_cases req' env' post)
      as [(r & calls & -> & _)|(e & v & _ & He & _)]; [done|].
    rewrite Hid in He. fold X in He. congruence.
  - destruct (delete_article_cases req' env' post)
      as [(r & calls & -> & _)|(a & calls & _ & Ha & _)]; [done|].
    rewrite Hid in Ha. fold X in Ha. congruence.
  - destruct (post_comments_cases req' env' post)
      as [(r & calls & -> & Hst)|(b & a & _ & _ & _ & Ha)]; [done|].
    rewrite Haid in Ha. fold X in Ha. congruence.
  - rewrite (get_comments_run getTime), response_of_Done, Haid. fold X.
    rewrite kv_facts.getByPrefix_nil; [done|].
    intros row Hin. by apply Hrows.
Qed.

(** ** Every store the service reaches *)

(** The six things a handler can do to the store. *)
Lemma handle_store_cases call req env s :
  let post := store_of (handle toISOString getTime getUser call req env s) in
  post = s
  ∨ (∃ article,
       post = kv.set (article_key (env_uuid env)) article s
       ∧ truthy (verifyAuth getUser req) = true
       ∧ prop article "id" = JStr (env_uuid env)
       ∧ prop article "authorId" = verifyAuth getUser req
       ∧ prop article "updatedAt" = JStr (toISOString (env_now2 env)))
  ∨ (∃ id existing t c e i v a,
       kv.get (article_key id) s = Some existing
       ∧ post = kv.set (article_key id)
                  (updatedArticle toISOString existing t c e i v a
                     (env_now env)) s)
  ∨ (∃ X, post = kv.mdel (map fst (kv.getByPrefix (comment_prefix X) s))
                   (kv.del (article_key X) s))
  ∨ (∃ articleId article comment,
       kv.get (article_key articleId) s = Some article
       ∧ post = kv.set (comment_key articleId (env_uuid env)) comment s)
  ∨ (∃ articleId commentId,
       post = kv.del (comment_key articleId commentId) s).
Proof.
  destruct call; simpl.
  - left. by rewrite (get_articles_run getTime).
  - left. apply get_article_store.
  - destruct (post_articles_cases req env s)
      as [(r & -> & _)|(a & -> & Hauth & Hid & Hau & _ & Hup)]; [by left|].
    right. left. by exists a.
  - destruct (put_article_cases req env s)
      as [(r & calls & -> & _)|(e & v & _ & He & _ & _ & ->)]; [by left|].
    do 2 right. left. by eexists _, e, _, _, _, _, _, _.
  - destruct (delete_article_cases req env s)
      as [(r & calls & -> & _)|(a & calls & _ & _ & ->)]; [by left|].
    do 3 right. left. by eexists.
  - left. by rewrite (get_comments_run getTime).
  - destruct (post_comments_store toISOString req env s)
      as [->|(a & c & Hget & -> & _)]; [by left|].
    do 4 right. left. by eexists _, a, c.
  - destruct (delete_comment_cases req env s)
      as [(r & calls & -> & _)|(_ & _ & ->)]; [by left|].
    do 5 right. by eexists _, _.
Qed.

Lemma comment_key_article a c a' c' :
  no_colon a = true → no_colon c = true →
  comment_key a c = comment_key a' c' → a' = a.
Proof.
  intros Ha Hc Heq. apply (comment_prefix_segment a' a c Ha Hc).
  rewrite Heq. apply comment_prefix_own_key.
Qed.

Lemma row_eq (k k' : string) (v v' : obj) :
  (k, v) = (k', v') → k = k' ∧ v = v'.
Proof. by intros [= -> ->]. Qed.

(** In a reachable store every comment's article is there. *)
Lemma reachable_comments_have_article s :
  reachable toISOString getTime getUser s →
  ∀ a c v, In (comment_key a c, v) s →
           no_colon a = true → no_colon c = true →
           is_Some (kv.get (article_key a) s).
Proof.
  induction 1 as [|s call req env Hr IH Henv]; [done|].
  pose proof (reachable_rows_ok toISOString getTime getUser s Hr) as Hok.
  intros a c v Hin Ha Hc. specialize (IH a c).
  destruct (handle_store_cases call req env s)
    as [Hs|[(art & Hs & _)|[(id & e & t & c0 & e0 & i & v0 & a0 & Hget & Hs)
       |[(X & Hs)|[(A & art & cm & Hget & Hs)|(A & C & Hs)]]]]];
    rewrite Hs in *; clear Hs.
  - by apply (IH v).
  - apply kv_facts.In_set in Hin as [[Hin _]|Heq].
    + destruct (decide (article_key a = article_key (env_uuid env)))
        as [->|Hne]; [by rewrite kv_facts.get_set_same|].
      rewrite get_set_other by done. by apply (IH v).
    + apply row_eq in Heq as [Heq _]. symmetry in Heq.
      by apply article_key_not_comment in Heq.
  - apply kv_facts.In_set in Hin as [[Hin _]|Heq].
    + destruct (decide (article_key a = article_key id))
        as [->|Hne]; [by rewrite kv_facts.get_set_same|].
      rewrite get_set_other by done. by apply (IH v).
    + apply row_eq in Heq as [Heq _]. symmetry in Heq.
      by apply article_key_not_comment in Heq.
  - rewrite cascade_filter in Hin. apply filter_In in Hin as [Hin Hf].
    apply andb_prop in Hf as [_ Hp%negb_true_iff]. cbn [fst] in Hp.
    assert (a ≠ X).
    { intros ->. by rewrite comment_prefix_own_key in Hp. }
    rewrite delete_article_other_key.
    + by apply (IH v).
    + intros Heq%article_key_inj. done.
    + apply comment_prefix_not_article.
  - rewrite get_set_other.
    2: { apply article_key_not_comment. }
    apply kv_facts.In_set in Hin as [[Hin _]|Heq]; [by apply (IH v)|].
    apply row_eq in Heq as [Heq _].
    apply (comment_key_article a c A (env_uuid env) Ha Hc) in Heq as ->.
    by rewrite Hget.
  - rewrite get_del_other.
    2: { apply article_key_not_comment. }
    apply kv_facts.In_del in Hin as [Hin _]. by apply (IH v).
Qed.

(** X15: as long as requests are handled one at a time and every call
    to the store succeeds (a reachable store is one the handlers produce
    from the empty store, each running to its end against a store whose
    calls do not fail), no comment is left without its article: in every
    such store, each row under a [comment:] key carries the articleId of
    an article that is in the store.  A delete-article request whose
    [kv.mdel] failed after its [kv.del] is outside this statement. *)
Theorem comments_have_their_article s0 s :
  reachable toISOString getTime getUser s0 →
  Permutation s0 s →
  ∀ key c, In (key, c) s → String.prefix "comment:" key = true →
    ∃ articleId article,
      prop c "articleId" = JStr articleId
      ∧ In (article_key articleId, article) s.
Proof.
  intros Hr Hp key c Hin Hpre.
  apply (Permutation_in _ (Permutation_sym Hp)) in Hin.
  destruct (reachable_rows_ok toISOString getTime getUser s0 Hr _ Hin)
    as [(id & t & Hk & _)|(a & i & t & Hk & Ha & Hi & Hca & _)];
    simpl in *.
  - subst key. by rewrite comment_family_not_article in Hpre.
  - subst key.
    destruct (reachable_comments_have_article s0 Hr a i c Hin Ha Hi)
      as [article Hget].
    exists a, article. split; [done|].
    apply (Permutation_in _ Hp). by apply kv_facts.get_Some_In.
Qed.

(** What holds of every article row of a reachable store. *)
Lemma reachable_article_rows s :
  reachable toISOString getTime getUser s →
  ∀ id a, In (article_key id, a) s →
    prop a "id" = JStr id
    ∧ (∃ author, prop a "authorId" = JStr author ∧ nonempty author = true)
    ∧ ∃ t, prop a "updatedAt" = JStr (toISOString t) ∧ valid_time t.
Proof.
  induction 1 as [|s call req env Hr IH (Hu & Hnow & Hnow2)]; [done|].
  intros id a Hin.
  destruct (handle_store_cases call req env s)
    as [Hs|[(art & Hs & Hauth & Hid & Hau & Hup)
       |[(id' & e & t & c0 & e0 & i & v0 & a0 & Hget & Hs)
       |[(X & Hs)|[(A & art & cm & Hget & Hs)|(A & C & Hs)]]]]];
    rewrite Hs in *; clear Hs.
  - by apply IH.
  - apply kv_facts.In_set in Hin as [[Hin _]|Heq]; [by apply IH|].
    apply row_eq in Heq as [Heq <-]. apply article_key_inj in Heq as ->.
    split; [done|]. split; [|by eexists].
    rewrite Hau.
    destruct (verifyAuth_cases getUser req) as [Hn|(u & -> & Hne)];
      [by rewrite Hn in Hauth|]. by exists u.
  - apply kv_facts.In_set in Hin as [[Hin _]|Heq]; [by apply IH|].
    apply row_eq in Heq as [Heq ->]. apply article_key_inj in Heq as ->.
    apply kv_facts.get_Some_In, IH in Hget as (Hid & Hau & _).
    rewrite !updatedArticle_other
      by (unfold updatable; simpl; intuition congruence).
    split; [done|]. split; [done|].
    exists (env_now env). split; [|done]. unfold updatedArticle. prop_eq.
  - rewrite cascade_filter in Hin. apply filter_In in Hin as [Hin _].
    by apply IH.
  - apply kv_facts.In_set in Hin as [[Hin _]|Heq]; [by apply IH|].
    apply row_eq in Heq as [Heq _]. by apply article_key_not_comment in Heq.
  - apply kv_facts.In_del in Hin as [Hin _]. by apply IH.
Qed.

(** X16: in every store the service can reach, the article stored under
    [article:<id>] has that id as its id field, a non-empty string as its
    authorId (the identity of the caller who created it), and as its
    updatedAt a timestamp the server printed. *)
Theorem stored_article_identity s0 s :
  reachable toISOString getTime getUser s0 →
  Permutation s0 s →
  ∀ id a, In (article_key id, a) s →
    prop a "id" = JStr id
    ∧ (∃ author, prop a "authorId" = JStr author ∧ nonempty author = true)
    ∧ ∃ t, prop a "updatedAt" = JStr (toISOString t) ∧ valid_time t.
Proof.
  intros Hr Hp id a Hin. apply (reachable_article_rows s0 Hr).
  by apply (Permutation_in _ (Permutation_sym Hp)).
Qed.

(** ** The authorization gate *)

Lemma split_space_word w rest :
  no_space w = true →
  split_space (w +:+ String " " rest) = w :: split_space rest.
Proof.
  induction w as [|c w IH]; intros Hw.
  - reflexivity.
  - simpl in Hw. apply andb_prop in Hw as [Hc%negb_true_iff Hw].
    change (String c w +:+ String " " rest)
      with (String c (w +:+ String " " rest)).
    simpl. rewrite Hc, (IH Hw). done.
Qed.

Lemma split_space_last w : no_space w = true → split_space w = [w].
Proof.
  induction w as [|c w IH]; intros Hw; [done|].
  simpl in Hw. apply andb_prop in Hw as [Hc%negb_true_iff Hw].
  simpl. by rewrite Hc, (IH Hw).
Qed.

(** X17: the gate takes as the token the second word of the
    Authorization header, words being separated by single spaces: the
    first word (the scheme) is not looked at and words after the second
    are dropped, so any scheme in front of a token resolves as [Bearer]
    does; a header of one word, and one with two spaces after the scheme,
    resolve to nobody. *)
Theorem verifyAuth_second_word req scheme token tail :
  no_space scheme = true →
  no_space token = true →
  let header h := verifyAuth getUser (with_authorization (Some h) req) in
  header (scheme +:+ " " +:+ token) = header ("Bearer " +:+ token)
  ∧ header (scheme +:+ " " +:+ token +:+ " " +:+ tail)
    = header ("Bearer " +:+ token)
  ∧ header token = JNull
  ∧ header (scheme +:+ "  " +:+ token) = JNull.
Proof.
  intros Hs Ht header. unfold header, verifyAuth. simpl.
  assert (Hb : no_space "Bearer" = true) by reflexivity.
  change ("Bearer " +:+ token) with ("Bearer" +:+ String " " token).
  change (scheme +:+ " " +:+ token) with (scheme +:+ String " " token).
  change (scheme +:+ " " +:+ token +:+ " " +:+ tail)
    with (scheme +:+ String " " (token +:+ String " " tail)).
  change (scheme +:+ "  " +:+ token)
    with (scheme +:+ String " " (EmptyString +:+ String " " token)).
  rewrite !split_space_word by done.
  rewrite !split_space_last by done. done.
Qed.

(** ** All the handlers *)

(** A run that answered with an error before writing, and one that
    answered 200. *)
Ltac failed_before_write Hw :=
  eexists; split; [reflexivity|]; simpl;
  split; [tauto|];
  split; [intros _; split; [reflexivity|]; repeat constructor; by eexists
         |intros Hin; exfalso; apply Hw; simpl; tauto].

Ltac answered_200 Hw :=
  eexists; split; [reflexivity|]; simpl;
  split; [tauto|];
  split; [intros Hne; exfalso; by apply Hne
         |intros Hin; exfalso; apply Hw; simpl; tauto].

(** X18: provided every call to the store succeeds (the store modelled
    here has no failing call), each of the eight article and comment
    handlers answers every request: the two listings with 200; the fetch
    of one article with 200 or 404; create-article with 200, 400, 401 or
    500; update-article with 200, 401, 404 or 500; the two deletes with
    200, 401 or 404; create-comment with 200, 400, 404 or 500, a 500
    coming from a body that cannot be read or used.  An answer other than
    200 is given before any write: the store is as it was and the only
    store calls made so far are lookups.  The three listing and fetching
    handlers never change the store. *)
Theorem handlers_fail_fast call req env s :
  let run := handle toISOString getTime getUser call req env s in
  ∃ r, response_of run = Some r
       ∧ In (status r)
            match call with
            | GetArticles | GetComments => [200]
            | GetArticle => [200; 404]
            | PostArticles => [200; 400; 401; 500]
            | PutArticle => [200; 401; 404; 500]
            | DeleteArticle | DeleteComment => [200; 401; 404]
            | PostComments => [200; 400; 404; 500]
            end
       ∧ (status r ≠ 200 →
          store_of run = s
          ∧ Forall (λ c, ∃ k, c = KvGet k) (calls_of run))
       ∧ (In call [GetArticles; GetArticle; GetComments] →
          store_of run = s).
Proof.
  assert (Hw : ∀ call' : ApiCall,
             In call' [PostArticles; PutArticle; DeleteArticle;
                       PostComments; DeleteComment] →
             In call' [GetArticles; GetArticle; GetComments] → False).
  { clear. simpl. intuition (subst; discriminate). }
  destruct call; simpl;
    [ | | specialize (Hw PostArticles) | specialize (Hw PutArticle)
      | specialize (Hw DeleteArticle) | | specialize (Hw PostComments)
      | specialize (Hw DeleteComment) ].
  - rewrite (get_articles_run getTime). eexists. split; [reflexivity|].
    simpl. split; [tauto|]. split; [|done]. by intros [].
  - rewrite get_article_run. eexists. split; [reflexivity|].
    split; [destruct (kv.get _ s); simpl; tauto|]. split; [|done].
    intros _. split; [done|]. repeat constructor. by eexists.
  - unfold post_articles.
    destruct (truthy (verifyAuth getUser req)) eqn:Hauth; simpl.
    2: { failed_before_write Hw. }
    run. destruct (req_json req) as [v|].
    2: { failed_before_write Hw. }
    destruct v; simpl; try (failed_before_write Hw).
    destruct (truthy (prop o "title")); simpl.
    2: { failed_before_write Hw. }
    destruct (truthy (prop o "content")); simpl.
    2: { failed_before_write Hw. }
    destruct (truthy (prop o "excerpt")); simpl.
    { answered_200 Hw. }
    destruct (prop o "content"); simpl;
      first [ answered_200 Hw | failed_before_write Hw ].
  - unfold put_article.
    destruct (truthy (verifyAuth getUser req)) eqn:Hauth; simpl.
    2: { failed_before_write Hw. }
    run. destruct (kv.get _ s) as [existing|].
    2: { failed_before_write Hw. }
    destruct (req_json req) as [v|].
    2: { failed_before_write Hw. }
    destruct v; simpl;
      first [ answered_200 Hw | failed_before_write Hw ].
  - unfold delete_article.
    destruct (truthy (verifyAuth getUser req)) eqn:Hauth; simpl.
    2: { failed_before_write Hw. }
    run. destruct (kv.get _ s) as [article|].
    2: { failed_before_write Hw. }
    destruct (0 <? _)%nat; simpl; answered_200 Hw.
  - rewrite (get_comments_run getTime). eexists. split; [reflexivity|].
    simpl. split; [tauto|]. split; [|done]. by intros [].
  - unfold post_comments. run.
    destruct (req_json req) as [v|].
    2: { failed_before_write Hw. }
    destruct v; simpl; try (failed_before_write Hw).
    destruct (truthy (prop o "name")); simpl.
    2: { failed_before_write Hw. }
    destruct (truthy (prop o "content")); simpl.
    2: { failed_before_write Hw. }
    destruct (kv.get _ s) as [article|].
    + answered_200 Hw.
    + failed_before_write Hw.
  - unfold delete_comment.
    destruct (truthy (verifyAuth getUser req)) eqn:Hauth; simpl.
    2: { failed_before_write Hw. }
    run. destruct (kv.get _ s) as [comment|].
    + answered_200 Hw.
    + failed_before_write Hw.
Qed.

End MoreServerFacts.

(** ** Signup *)

Ltac signup_leaf :=
  split; [done|]; split; [done|]; eexists; (split; [reflexivity|]);
  simpl; split; [tauto|];
  repeat split; try done;
  intros;
  repeat match goal with
         | H : ∃ _, _ |- _ => destruct H as [? H]
         | H : _ ∧ _ |- _ => destruct H as [? H]
         | H : _ ∨ _ |- _ => destruct H as [H|H]
         | H : Some _ = Some _ |- _ => apply (inj Some) in H; subst
         | H : Done _ = Done _ |- _ => apply (inj Done) in H; subst
         end;
  simpl in *; try congruence;
  try (exfalso; match goal with H : ¬ _ |- _ => by apply H end);
  try (by left);
  try (by right; eexists; split; [reflexivity|]; left);
  try (by right; eexists; split; [reflexivity|]; right);
  try (by eexists _, _);
  try (eexists; split; [reflexivity|]; split; [done|];
       first [ by right; eexists _, _
             | left; intros (? & ? & ? & ?); simpl in *; congruence ]).

(** X19: the signup handler never reads or writes the store, and it
    answers every request, with 200, 400 or 500.  It answers 200 exactly
    when the body has a non-empty email, password and name and the
    identity provider, given these three, creates the account without an
    error; 500 exactly when the body cannot be read as JSON or is null,
    or the identity provider throws on such a complete body; and 400 in
    every other case, that is, when one of the three fields is missing or
    empty, or the identity provider reports an error. *)
Theorem signup_outcome createUser req env s :
  let run := post_signup createUser req env s in
  let complete v :=
    nullish v = false
    ∧ truthy (member v "email") = true
    ∧ truthy (member v "password") = true
    ∧ truthy (member v "name") = true in
  let created v :=
    createUser (member v "email") (member v "password") (member v "name") in
  store_of run = s
  ∧ calls_of run = []
  ∧ ∃ r, response_of run = Some r
         ∧ In (status r) [200; 400; 500]
         ∧ (status r = 200 ↔
            ∃ v u, req_json req = Some v ∧ complete v
                   ∧ created v = Done u ∧ create_error u = None)
         ∧ (status r = 500 ↔
            req_json req = None
            ∨ ∃ v, req_json req = Some v
                   ∧ (nullish v = true ∨ complete v ∧ created v = Thrown))
         ∧ (status r = 400 ↔
            ∃ v, req_json req = Some v ∧ nullish v = false
                 ∧ (¬ complete v
                    ∨ ∃ u msg, created v = Done u
                               ∧ create_error u = Some msg)).
Proof.
  intros run complete created. subst run complete created.
  unfold post_signup. run. cbv beta.
  destruct (req_json req) as [v|] eqn:Hbody; simpl.
  2: { signup_leaf. }
  destruct v as [| | | | | |o]; simpl; try signup_leaf.
  destruct (truthy (prop o "email")) eqn:He; simpl; [|signup_leaf].
  destruct (truthy (prop o "password")) eqn:Hp; simpl; [|signup_leaf].
  destruct (truthy (prop o "name")) eqn:Hn; simpl; [|signup_leaf].
  destruct (createUser _ _ _) as [u|] eqn:Hcu; simpl; [|signup_leaf].
  destruct (create_error u) as [msg|] eqn:Herr; simpl; signup_leaf.
Qed.

(** ** The pages against the server *)

Lemma str_or_dots e c : nonempty (str_or e (c +:+ "...")) = true.
Proof.
  unfold str_or. destruct (nonempty e) eqn:He; [done|].
  induction c; [done|done].
Qed.

Lemma str_or_empty s : str_or s "" = s.
Proof. by destruct s. Qed.

Lemma Send_inj r r' : CommentSection.Send r = CommentSection.Send r' → r = r'.
Proof.
  intros H.
  by apply (f_equal (λ x, match x with
                          | CommentSection.Send q => q
                          | CommentSection.Toast _ => r
                          end)) in H.
Qed.

Section PagesFacts.

Variable toISOString : Z → string.
Variable getUser : string → AuthResult.
Variable publicAnonKey : string.

Lemma editor_payload st :
  let b := ArticleEditor.handleSubmit st in
  prop b "title" = JStr (ArticleEditor.title st)
  ∧ prop b "content" = JStr (ArticleEditor.content st)
  ∧ prop b "excerpt"
    = JStr (str_or (ArticleEditor.excerpt st)
              (substring 0 150 (ArticleEditor.content st) +:+ "..."))
  ∧ prop b "imageUrl" = JStr (ArticleEditor.imageUrl st)
  ∧ prop b "videoUrl" = JStr (ArticleEditor.videoUrl st)
  ∧ prop b "audioUrl" = JStr (ArticleEditor.audioUrl st).
Proof.
  unfold ArticleEditor.handleSubmit. simpl. rewrite !str_or_empty.
  repeat split; prop_eq.
Qed.

(** A create request whose body has strings in all six fields. *)
Lemma create_from_strings req env s b t c e i v a :
  truthy (verifyAuth getUser req) = true →
  req_json req = Some (JObj b) →
  prop b "title" = JStr t → prop b "content" = JStr c →
  prop b "excerpt" = JStr e → prop b "imageUrl" = JStr i →
  prop b "videoUrl" = JStr v → prop b "audioUrl" = JStr a →
  nonempty t = true → nonempty c = true → nonempty e = true →
  ∃ article,
    post_articles toISOString getUser req env s
    = (Done (json (<[ "article" := JObj article ]>
                     {[ "success" := JBool true ]}) 200),
       kv.set (article_key (env_uuid env)) article s,
       [KvSet (article_key (env_uuid env)) article])
    ∧ prop article "title" = JStr t
    ∧ prop article "content" = JStr c
    ∧ prop article "excerpt" = JStr e
    ∧ prop article "imageUrl" = (if nonempty i then JStr i else JNull)
    ∧ prop article "videoUrl" = (if nonempty v then JStr v else JNull)
    ∧ prop article "audioUrl" = (if nonempty a then JStr a else JNull).
Proof.
  intros Hauth Hb Ht Hc He Hi Hv Ha Hnt Hnc Hne.
  rewrite (post_articles_run toISOString getUser req env s b (JStr e)
             Hauth Hb).
  - eexists. split; [reflexivity|].
    rewrite Ht, Hc, Hi, Hv, Ha. unfold js_or. simpl.
    repeat split; prop_eq.
  - by rewrite Ht.
  - by rewrite Hc.
  - rewrite He. simpl. by rewrite Hne.
Qed.

(** X20: what the dashboard's create of the editor's form ends in, for a
    token the server resolves.  With an empty title or content the server
    answers 400 and stores nothing.  Otherwise it answers 200 and stores
    the title and content as typed; the excerpt as typed or, if left
    empty, the first 150 characters of the content followed by three
    dots, made by the editor and not by the server; and each media URL as
    typed, or [null] if left empty. *)
Theorem editor_create_end_to_end accessToken st env s :
  let req := AdminDashboard.handleCreate accessToken
               (ArticleEditor.handleSubmit st) in
  let run := post_articles toISOString getUser req env s in
  truthy (verifyAuth getUser req) = true →
  (nonempty (ArticleEditor.title st) && nonempty (ArticleEditor.content st)
   = false →
   status <$> response_of run = Some 400 ∧ store_of run = s)
  ∧ (nonempty (ArticleEditor.title st) = true →
     nonempty (ArticleEditor.content st) = true →
     ∃ article,
       status <$> response_of run = Some 200
       ∧ store_of run = kv.set (article_key (env_uuid env)) article s
       ∧ prop article "title" = JStr (ArticleEditor.title st)
       ∧ prop article "content" = JStr (ArticleEditor.content st)
       ∧ prop article "excerpt"
         = JStr (if nonempty (ArticleEditor.excerpt st)
                 then ArticleEditor.excerpt st
                 else substring 0 150 (ArticleEditor.content st) +:+ "...")
       ∧ ∀ f url,
           In (f, url) [("imageUrl", ArticleEditor.imageUrl st);
                        ("videoUrl", ArticleEditor.videoUrl st);
                        ("audioUrl", ArticleEditor.audioUrl st)] →
           prop article f = if nonempty url then JStr url else JNull).
Proof.
  intros req run Hauth.
  destruct (editor_payload st) as (Ht & Hc & He & Hi & Hv & Ha).
  assert (Hb : req_json req = Some (JObj (ArticleEditor.handleSubmit st)))
    by reflexivity.
  split.
  - intros Hempty. unfold run.
    rewrite (create_article_validation toISOString getUser req env s
               _ Hauth Hb).
    + done.
    + rewrite Ht, Hc. simpl. apply andb_false_iff in Hempty. tauto.
  - intros Hnt Hnc. unfold run.
    destruct (create_from_strings req env s _ _ _ _ _ _ _
                Hauth Hb Ht Hc He Hi Hv Ha Hnt Hnc (str_or_dots _ _))
      as (article & -> & Hat & Hac & Hae & Hai & Hav & Haa).
    rewrite response_of_Done, store_of_triple. exists article.
    split; [done|]. split; [done|]. split; [done|]. split; [done|].
    split; [exact Hae|].
    intros f url Hin. simpl in Hin.
    destruct Hin as [Hin|[Hin|[Hin|[]]]];
      apply (f_equal (λ p, (fst p, snd p))) in Hin; simpl in Hin;
      assert (Hf := f_equal fst Hin); assert (Hu := f_equal snd Hin);
      simpl in Hf, Hu; subst f url; done.
Qed.

(** X21: what the dashboard's update of the editor's form ends in, for a
    token the server resolves and an existing article: all six fields
    are overwritten with what the form holds, so an emptied title or
    content is stored empty and an emptied media URL is stored as the
    empty string (not as [null], as a create would); the excerpt is
    never stored empty; id, authorId and createdAt stay.  Without an
    article being edited nothing is sent. *)
Theorem editor_update_end_to_end accessToken id st env s existing :
  let data := ArticleEditor.handleSubmit st in
  AdminDashboard.handleUpdate accessToken None data = None
  ∧ ∃ req,
      AdminDashboard.handleUpdate accessToken (Some id) data = Some req
      ∧ (truthy (verifyAuth getUser req) = true →
         kv.get (article_key id) s = Some existing →
         ∃ updated excerpt,
           status <$> response_of (put_article toISOString getUser req env s)
           = Some 200
           ∧ store_of (put_article toISOString getUser req env s)
             = kv.set (article_key id) updated s
           ∧ prop updated "title" = JStr (ArticleEditor.title st)
           ∧ prop updated "content" = JStr (ArticleEditor.content st)
           ∧ prop updated "excerpt" = JStr excerpt
           ∧ nonempty excerpt = true
           ∧ prop updated "imageUrl" = JStr (ArticleEditor.imageUrl st)
           ∧ prop updated "videoUrl" = JStr (ArticleEditor.videoUrl st)
           ∧ prop updated "audioUrl" = JStr (ArticleEditor.audioUrl st)
           ∧ ∀ f, ¬ In f updatable → prop updated f = prop existing f).
Proof.
  intros data. split; [done|]. eexists. split; [reflexivity|].
  intros Hauth Hget.
  destruct (editor_payload st) as (Ht & Hc & He & Hi & Hv & Ha).
  fold data in Ht, Hc, He, Hi, Hv, Ha.
  rewrite (put_article_run toISOString getUser _ env s existing data
             Hauth Hget eq_refl).
  rewrite response_of_Done, store_of_triple.
  rewrite Ht, Hc, He, Hi, Hv, Ha.
  eexists _, _. split; [done|]. split; [reflexivity|].
  unfold updatedArticle, js_coalesce. simpl.
  split; [prop_eq|]. split; [prop_eq|]. split; [prop_eq|].
  split; [apply str_or_dots|].
  split; [prop_eq|]. split; [prop_eq|]. split; [prop_eq|].
  intros f Hf.
  by apply (updatedArticle_other toISOString existing
              (JStr _) (JStr _) (JStr _) (JStr _) (JStr _) (JStr _)).
Qed.

(** X22: a comment that the comment form sends is one the server takes:
    its name, trimmed, has at least 2 characters and its content,
    trimmed, between 3 and 1000; for an existing article create-comment
    answers 200 and stores the trimmed name and the trimmed content. *)
Theorem comment_form_end_to_end articleId name content req env s article :
  CommentSection.handleSubmit publicAnonKey articleId name content
  = CommentSection.Send req →
  kv.get (article_key articleId) s = Some article →
  (2 ≤ String.length (trim name))%nat
  ∧ (3 ≤ String.length (trim content) ≤ 1000)%nat
  ∧ ∃ comment,
      status <$> response_of (post_comments toISOString req env s) = Some 200
      ∧ store_of (post_comments toISOString req env s)
        = kv.set (comment_key articleId (env_uuid env)) comment s
      ∧ prop comment "name" = JStr (trim name)
      ∧ prop comment "content" = JStr (trim content).
Proof.
  unfold CommentSection.handleSubmit. intros Hsend Hget.
  destruct (nonempty (trim name)) eqn:Hn; simpl in Hsend; [|done].
  destruct (nonempty (trim content)) eqn:Hc; simpl in Hsend; [|done].
  destruct (Nat.ltb_spec (String.length (trim name)) 2); [done|].
  destruct (Nat.ltb_spec (String.length (trim content)) 3); [done|].
  destruct (Nat.ltb_spec 1000 (String.length (trim content))); [done|].
  apply Send_inj in Hsend. subst req.
  split; [done|]. split; [done|].
  match goal with
  | |- context [post_comments _ ?r _ _] =>
      rewrite (post_comments_run toISOString r env s
                 (list_to_map [("name", JStr (trim name));
                               ("content", JStr (trim content))]) article
                 eq_refl)
  end.
  - rewrite response_of_Done, store_of_triple. eexists.
    split; [done|]. split; [reflexivity|]. split; prop_eq.
  - simpl. prop_eq.
  - simpl. prop_eq.
  - exact Hget.
Qed.

(** X24: the comment form sends a request exactly when the trimmed name
    has at least 2 characters and the trimmed content has at least 3 and
    at most 1000 (a content of exactly 1000 characters is sent);
    otherwise it shows a message and sends nothing. *)
Theorem comment_form_sends_iff articleId name content :
  (∃ req, CommentSection.handleSubmit publicAnonKey articleId name content
          = CommentSection.Send req)
  ↔ (2 ≤ String.length (trim name))%nat
    ∧ (3 ≤ String.length (trim content) ≤ 1000)%nat.
Proof.
  unfold CommentSection.handleSubmit.
  assert (Hne : ∀ s, nonempty s = false → String.length s = 0%nat)
    by (by intros []).
  destruct (nonempty (trim name)) eqn:Hn; simpl.
  2: { apply Hne in Hn. split; [by intros [req Hreq]|lia]. }
  destruct (nonempty (trim content)) eqn:Hc; simpl.
  2: { apply Hne in Hc. split; [by intros [req Hreq]|lia]. }
  destruct (Nat.ltb_spec (String.length (trim name)) 2) as [H2|H2];
    [split; [by intros [req Hreq]|lia]|].
  destruct (Nat.ltb_spec (String.length (trim content)) 3) as [H3|H3];
    [split; [by intros [req Hreq]|lia]|].
  destruct (Nat.ltb_spec 1000 (String.length (trim content))) as [H4|H4];
    [split; [by intros [req Hreq]|lia]|].
  split; [lia|]. intros _. by eexists.
Qed.

End PagesFacts.

(** ** The application shell *)



(** ** The further properties at concrete requests *)

Lemma sample_admin id body :
  truthy (verifyAuth Sample.getUser (Sample.request Sample.admin id body))
  = true.
Proof. reflexivity. Qed.

Lemma created_article_round_trip_witness :
  let req := Demo.create {[ "title" := JStr "A";
                            "content" := JStr "hello world" ]} in
  let env := Sample.at_time Sample.uuid1 1000 in
  let req' := Sample.request None Sample.uuid1 None in
  let s' := store_of (post_articles Sample.toISOString Sample.getUser
                        req env []) in
  ∃ article,
    prop article "id" = JStr Sample.uuid1
    ∧ get_article req' env s'
      = (Done (json {[ "article" := JObj article ]} 200), s',
         [KvGet (article_key Sample.uuid1)]).
Proof.
  intros req env req' s'.
  destruct (post_articles_cases Sample.toISOString Sample.getUser req env [])
    as [(r & Hrun & Hst)|(article & Hrun & _ & Hid & _)].
  - exfalso.
    assert (H : status <$> response_of
                  (post_articles Sample.toISOString Sample.getUser req env [])
                = Some 200) by (by vm_compute).
    rewrite Hrun in H. rewrite response_of_Done in H. simpl in H.
    apply (inj Some) in H. rewrite H in Hst. simpl in Hst. lia.
  - exists article. split; [exact Hid|].
    apply (created_article_round_trip Sample.toISOString Sample.getUser
             req env [] article req' env).
    + by rewrite Hrun.
    + exact Hid.
Defined.

Lemma create_article_validation_witness :
  let b : obj := {[ "title" := JStr ""; "content" := JStr "text" ]} in
  post_articles Sample.toISOString Sample.getUser (Demo.create b)
    (Sample.at_time Sample.uuid3 4000) Sample.store1
  = (Done (json {[ "error" := JStr "Title and content are required" ]} 400),
     Sample.store1, []).
Proof.
  intros b.
  apply (create_article_validation Sample.toISOString Sample.getUser
           (Demo.create b) _ Sample.store1 (JObj b)).
  - apply sample_admin.
  - reflexivity.
  - left. by vm_compute.
Defined.

Lemma create_article_throws_witness :
  let b : obj := {[ "title" := JStr "T"; "content" := JNum 42 ]} in
  post_articles Sample.toISOString Sample.getUser (Demo.create b)
    (Sample.at_time Sample.uuid3 4000) Sample.store1
  = (Done (json {[ "error" := JStr "Failed to create article" ]} 500),
     Sample.store1, []).
Proof.
  intros b.
  apply (create_article_throws Sample.toISOString Sample.getUser
           (Demo.create b) _ Sample.store1).
  - apply sample_admin.
  - right. right. exists b. split; [reflexivity|].
    assert (Hc : prop b "content" = JNum 42) by (by vm_compute).
    split; [by vm_compute|]. split; [by vm_compute|].
    split; [by rewrite Hc|by vm_compute].
Defined.

Lemma created_article_short_excerpt_witness :
  let b : obj := {[ "title" := JStr "A"; "content" := JStr "hello world" ]} in
  ∃ article,
    kv.get (article_key Sample.uuid1)
      (store_of (post_articles Sample.toISOString Sample.getUser
                   (Demo.create b) (Sample.at_time Sample.uuid1 1000) []))
    = Some article
    ∧ prop article "excerpt" = JStr "hello world...".
Proof.
  intros b.
  apply (created_article_short_excerpt Sample.toISOString Sample.getUser
           (Demo.create b) (Sample.at_time Sample.uuid1 1000) [] b
           "hello world").
  - apply sample_admin.
  - reflexivity.
  - by vm_compute.
  - by vm_compute.
  - simpl. lia.
  - by vm_compute.
Defined.

Lemma created_article_supplied_fields_witness :
  let b : obj := {[ "title" := JStr "A"; "content" := JStr "hello world";
                    "excerpt" := JStr "E"; "imageUrl" := JStr "" ]} in
  let env := Sample.at_time Sample.uuid1 1000 in
  ∃ article,
    kv.get (article_key (env_uuid env))
      (store_of (post_articles Sample.toISOString Sample.getUser
                   (Demo.create b) env [])) = Some article
    ∧ prop article "excerpt" = prop b "excerpt"
    ∧ prop article "title" = prop b "title"
    ∧ prop article "content" = prop b "content"
    ∧ prop article "id" = JStr (env_uuid env)
    ∧ prop article "authorId" = verifyAuth Sample.getUser (Demo.create b)
    ∧ ∀ f, In f ["imageUrl"; "videoUrl"; "audioUrl"] →
           prop article f = if truthy (prop b f) then prop b f else JNull.
Proof.
  intros b env.
  apply (created_article_supplied_fields Sample.toISOString Sample.getUser
           (Demo.create b) env [] b).
  - apply sample_admin.
  - reflexivity.
  - by vm_compute.
  - by vm_compute.
  - by vm_compute.
Defined.

Lemma update_missing_article_witness :
  let req := Sample.request Sample.admin Sample.uuid3 None in
  put_article Sample.toISOString Sample.getUser req
    (Sample.at_time Sample.uuid2 5000) Sample.store1
  = (Done article_not_found, Sample.store1,
     [KvGet (article_key Sample.uuid3)]).
Proof.
  intros req.
  apply (update_missing_article Sample.toISOString Sample.getUser req _
           Sample.store1).
  - apply sample_admin.
  - by vm_compute.
Defined.

Lemma update_keeps_the_rest_witness :
  let req := Sample.put Sample.uuid1 {[ "id" := JStr "other";
                                        "authorId" := JStr "mallory" ]} in
  let env := Sample.at_time Sample.uuid2 5000 in
  let key := article_key Sample.uuid1 in
  let existing := default ∅ (kv.get key Sample.store2) in
  let post := store_of (put_article Sample.toISOString Sample.getUser req env
                          Sample.store2) in
  (∃ after, kv.get key post = Some after
            ∧ ∀ f, ¬ In f updatable → prop after f = prop existing f)
  ∧ ∀ k, k ≠ key → kv.get k post = kv.get k Sample.store2.
Proof.
  intros req env key existing post.
  apply (update_keeps_the_rest Sample.toISOString Sample.getUser req env
           Sample.store2 existing).
  apply get_present. by vm_compute.
Defined.

Lemma update_text_field_witness :
  let b : obj := {[ "title" := JNull; "content" := JStr "" ]} in
  let req := Sample.put Sample.uuid1 b in
  let env := Sample.at_time Sample.uuid2 5000 in
  let existing :=
    default ∅ (kv.get (article_key Sample.uuid1) Sample.store1) in
  ∃ updated,
    kv.get (article_key Sample.uuid1)
      (store_of (put_article Sample.toISOString Sample.getUser req env
                   Sample.store1)) = Some updated
    ∧ prop updated "content"
      = if nullish (prop b "content") then prop existing "content"
        else prop b "content".
Proof.
  intros b req env existing.
  apply (update_text_field Sample.toISOString Sample.getUser req env
           Sample.store1 existing b "content").
  - simpl. tauto.
  - apply sample_admin.
  - apply get_present. by vm_compute.
  - reflexivity.
Defined.

Lemma update_without_fields_witness :
  let req := Sample.request Sample.admin Sample.uuid1 (Some (JArr [])) in
  let env := Sample.at_time Sample.uuid2 5000 in
  let existing :=
    default ∅ (kv.get (article_key Sample.uuid1) Sample.store1) in
  let run := put_article Sample.toISOString Sample.getUser req env
               Sample.store1 in
  ∃ updated,
    status <$> response_of run = Some 200
    ∧ kv.get (article_key Sample.uuid1) (store_of run) = Some updated
    ∧ prop updated "updatedAt" = JStr (Sample.toISOString 5000)
    ∧ ∀ f, f ≠ "updatedAt" → prop updated f = prop existing f.
Proof.
  intros req env existing run.
  apply (update_without_fields Sample.toISOString Sample.getUser req env
           Sample.store1 existing (JArr [])).
  - apply sample_admin.
  - apply get_present. by vm_compute.
  - reflexivity.
  - exact I.
Defined.

Lemma update_bad_body_witness :
  let req := Sample.request Sample.admin Sample.uuid1 (Some JNull) in
  put_article Sample.toISOString Sample.getUser req
    (Sample.at_time Sample.uuid2 5000) Sample.store1
  = (Done (json {[ "error" := JStr "Failed to update article" ]} 500),
     Sample.store1, [KvGet (article_key Sample.uuid1)]).
Proof.
  intros req.
  apply (update_bad_body Sample.toISOString Sample.getUser req _
           Sample.store1
           (default ∅ (kv.get (article_key Sample.uuid1) Sample.store1))).
  - apply sample_admin.
  - apply get_present. by vm_compute.
  - by right.
Defined.

Lemma delete_article_keeps_the_rest_witness :
  let req := Sample.request Sample.admin Sample.uuid1 None in
  let env := Sample.at_time Sample.uuid2 6000 in
  let post := store_of (delete_article Sample.getUser req env Sample.store3) in
  post = List.filter
           (λ row, negb (String.eqb (fst row) (article_key Sample.uuid1))
                   && negb (String.prefix (comment_prefix Sample.uuid1)
                              (fst row))) Sample.store3
  ∧ kv.get (article_key Sample.uuid3) post
    = kv.get (article_key Sample.uuid3) Sample.store3
  ∧ length post = 1%nat.
Proof.
  intros req env post.
  destruct (delete_article_keeps_the_rest Sample.getUser req env
              Sample.store3
              (default ∅ (kv.get (article_key Sample.uuid1) Sample.store3)))
    as (Hpost & Harticles & _).
  - apply sample_admin.
  - apply get_present. by vm_compute.
  - split; [exact Hpost|]. split; [by apply Harticles|]. by vm_compute.
Defined.

Lemma delete_comment_removes_one_witness :
  let req := Demo.comment_request Sample.admin Sample.uuid1 Sample.uuid2 in
  let env := Sample.at_time Sample.uuid3 6000 in
  let key := comment_key Sample.uuid1 Sample.uuid2 in
  let run := delete_comment Sample.getUser req env Sample.store3 in
  status <$> response_of run = Some 200
  ∧ kv.get key (store_of run) = None
  ∧ ∀ k, k ≠ key → kv.get k (store_of run) = kv.get k Sample.store3.
Proof.
  intros req env key run.
  destruct (delete_comment_removes_one Sample.getUser req env Sample.store3)
    as (Hst & _ & Hgone & Hrest).
  - reflexivity.
  - split; [|split; [exact Hgone|exact Hrest]].
    etransitivity; [exact Hst|]. by vm_compute.
Defined.

Lemma created_comment_is_listed_witness :
  let b : obj := {[ "name" := JStr "N"; "content" := JStr "hi" ]} in
  let req := Sample.request None Sample.uuid1 (Some (JObj b)) in
  let env := Sample.at_time Sample.uuid2 2000 in
  let run := post_comments Sample.toISOString req env Sample.store1 in
  ∃ comment listed,
    store_of run = kv.set (comment_key Sample.uuid1 Sample.uuid2) comment
                     Sample.store1
    ∧ prop comment "name" = JStr "N"
    ∧ response_of (get_comments Sample.getTime req env (store_of run))
      = Some (json {[ "comments" := JArr (JObj <$> listed) ]} 200)
    ∧ In comment listed.
Proof.
  intros b req env run.
  destruct (created_comment_is_listed Sample.toISOString Sample.getTime
              req env Sample.store1 b
              (default ∅ (kv.get (article_key Sample.uuid1) Sample.store1))
              req env)
    as (comment & listed & _ & Hs & Hn & _ & _ & Hl & Hin).
  - reflexivity.
  - by vm_compute.
  - by vm_compute.
  - apply get_present. by vm_compute.
  - reflexivity.
  - exists comment, listed. split; [exact Hs|].
    split; [rewrite Hn; by vm_compute|]. split; [exact Hl|exact Hin].
Defined.

Lemma deleted_article_is_gone_witness :
  let req := Sample.request Sample.admin Sample.uuid1 None in
  let env := Sample.at_time Sample.uuid3 6000 in
  let post := store_of (delete_article Sample.getUser req env Sample.store2) in
  status <$> response_of (get_article req env post) = Some 404
  ∧ status <$> response_of
                 (post_comments Sample.toISOString req env post) ≠ Some 200
  ∧ response_of (get_comments Sample.getTime req env post)
    = Some (json {[ "comments" := JArr [] ]} 200).
Proof.
  intros req env post.
  destruct (deleted_article_is_gone Sample.toISOString Sample.getTime
              Sample.getUser req env Sample.store2
              (default ∅ (kv.get (article_key Sample.uuid1) Sample.store2))
              req env)
    as (H1 & _ & H3 & _ & _ & _ & H7).
  - apply sample_admin.
  - apply get_present. by vm_compute.
  - reflexivity.
  - reflexivity.
  - split; [exact H1|]. split; [exact H3|exact H7].
Defined.

Lemma comments_have_their_article_witness :
  let s := rev Sample.store3 in
  let key := comment_key Sample.uuid1 Sample.uuid2 in
  let c := default ∅ (kv.get key s) in
  ∃ articleId article,
    prop c "articleId" = JStr articleId
    ∧ In (article_key articleId, article) s.
Proof.
  intros s key c.
  apply (comments_have_their_article Sample.toISOString Sample.getTime
           Sample.getUser Sample.store3 s sample_store3_reachable
           (Permutation_rev _) key c).
  - apply kv_facts.get_Some_In. apply get_present. by vm_compute.
  - by vm_compute.
Defined.

Lemma stored_article_identity_witness :
  let s := rev Sample.store3 in
  let a := default ∅ (kv.get (article_key Sample.uuid3) s) in
  prop a "id" = JStr Sample.uuid3
  ∧ (∃ author, prop a "authorId" = JStr author ∧ nonempty author = true)
  ∧ ∃ t, prop a "updatedAt" = JStr (Sample.toISOString t) ∧ valid_time t.
Proof.
  intros s a.
  apply (stored_article_identity Sample.toISOString Sample.getTime
           Sample.getUser Sample.store3 s sample_store3_reachable
           (Permutation_rev _) Sample.uuid3 a).
  apply kv_facts.get_Some_In. apply get_present. by vm_compute.
Defined.

Lemma verifyAuth_second_word_witness :
  let header h := verifyAuth Sample.getUser
                    (with_authorization (Some h)
                       (Sample.request None "" None)) in
  header "Basic secret" = header "Bearer secret"
  ∧ header "Basic secret and more" = header "Bearer secret"
  ∧ header "secret" = JNull
  ∧ header "Basic  secret" = JNull
  ∧ header "Bearer secret" = JStr "admin".
Proof.
  intros header.
  destruct (verifyAuth_second_word Sample.getUser
              (Sample.request None "" None) "Basic" "secret" "and more"
              eq_refl eq_refl) as (H1 & H2 & H3 & H4).
  split; [exact H1|]. split; [exact H2|]. split; [exact H3|].
  split; [exact H4|reflexivity].
Defined.

Lemma editor_create_end_to_end_witness :
  let req := AdminDashboard.handleCreate "secret"
               (ArticleEditor.handleSubmit Demo.form) in
  let env := Sample.at_time Sample.uuid1 1000 in
  let run := post_articles Sample.toISOString Sample.getUser req env [] in
  truthy (verifyAuth Sample.getUser req) = true
  ∧ ∃ article,
      status <$> response_of run = Some 200
      ∧ store_of run = kv.set (article_key Sample.uuid1) article []
      ∧ prop article "title" = JStr "T"
      ∧ prop article "excerpt" = JStr "body..."
      ∧ prop article "imageUrl" = JNull
      ∧ prop article "videoUrl" = JStr "v".
Proof.
  intros req env run.
  assert (Hauth : truthy (verifyAuth Sample.getUser req) = true)
    by reflexivity.
  split; [exact Hauth|].
  destruct (editor_create_end_to_end Sample.toISOString Sample.getUser
              "secret" Demo.form env [] Hauth) as [_ H].
  destruct (H eq_refl eq_refl) as (article & Hst & Hs & Ht & _ & He & Hm).
  exists article. split; [exact Hst|]. split; [exact Hs|].
  split; [exact Ht|]. split; [exact He|].
  split.
  - apply (Hm "imageUrl" ""). simpl. tauto.
  - apply (Hm "videoUrl" "v"). simpl. tauto.
Defined.

Lemma editor_update_end_to_end_witness :
  let data := ArticleEditor.handleSubmit Demo.form in
  let env := Sample.at_time Sample.uuid2 5000 in
  ∃ req updated,
    AdminDashboard.handleUpdate "secret" (Some Sample.uuid1) data = Some req
    ∧ store_of (put_article Sample.toISOString Sample.getUser req env
                  Sample.store1)
      = kv.set (article_key Sample.uuid1) updated Sample.store1
    ∧ prop updated "title" = JStr "T"
    ∧ prop updated "imageUrl" = JStr "".
Proof.
  intros data env.
  destruct (editor_update_end_to_end Sample.toISOString Sample.getUser
              "secret" Sample.uuid1 Demo.form env Sample.store1
              (default ∅ (kv.get (article_key Sample.uuid1) Sample.store1)))
    as (_ & req & Hreq & H).
  destruct H as (updated & excerpt & _ & Hs & Ht & _ & _ & _ & Hi & _).
  - apply (f_equal (default req)) in Hreq. simpl in Hreq. rewrite <- Hreq.
    reflexivity.
  - apply get_present. by vm_compute.
  - exists req, updated. split; [exact Hreq|]. split; [exact Hs|].
    split; [exact Ht|exact Hi].
Defined.

Lemma comment_form_end_to_end_witness :
  let env := Sample.at_time Sample.uuid2 2000 in
  ∃ req comment,
    CommentSection.handleSubmit "anon" Sample.uuid1 "  Al " " hi there  "
    = CommentSection.Send req
    ∧ status <$> response_of
                   (post_comments Sample.toISOString req env Sample.store1)
      = Some 200
    ∧ prop comment "name" = JStr "Al"
    ∧ prop comment "content" = JStr "hi there"
    ∧ store_of (post_comments Sample.toISOString req env Sample.store1)
      = kv.set (comment_key Sample.uuid1 Sample.uuid2) comment Sample.store1.
Proof.
  intros env.
  assert (Hsend : ∃ req,
            CommentSection.handleSubmit "anon" Sample.uuid1 "  Al "
              " hi there  " = CommentSection.Send req) by (by eexists).
  destruct Hsend as [req Hsend].
  destruct (comment_form_end_to_end Sample.toISOString "anon" Sample.uuid1
              "  Al " " hi there  " req env Sample.store1
              (default ∅ (kv.get (article_key Sample.uuid1) Sample.store1))
              Hsend)
    as (_ & _ & comment & Hst & Hs & Hn & Hc).
  - apply get_present. by vm_compute.
  - exists req, comment. split; [exact Hsend|]. split; [exact Hst|].
    split; [exact Hn|]. split; [exact Hc|exact Hs].
Defined.

